(** * neghi-go/iam: credential lifecycle of the password and passwordless
      strategies, and the strategy registry.

    A shallow embedding of
    - [authentication.Auth] ([New], [RegisterStrategy], [RegisterSession],
      [Build]),
    - package [password] (the handlers of [/login], [/register],
      [/password-reset], [/email-verify], and [argonHasher]),
    - package [passwordless] (the handler [authorize]).

    Handlers are functions in a state monad over a [World]: the store, the
    wall clock, the random source, the heap's next free address (Go's
    [errors.New] allocates) and the sequence of calls made to the
    collaborators.  The store is an interface ([Model]), as in the source. *)

From Stdlib Require Import ZArith Lia Ascii String.
From stdpp Require Import base gmap strings list fin_maps.

Local Open Scope Z_scope.
Local Open Scope string_scope.
Local Open Scope list_scope.

(** ** Go values *)

(** A Go [error] made by [errors.New] or by [fmt.Errorf] with [%w].  Both are
    pointers: [addr] is the address of the allocation, and [==] on two error
    values compares addresses.  Error types with an [Is] method of their own
    are not modelled. *)
Inductive error : Type :=
| ErrorString (addr : nat) (text : string)
| WrapError (addr : nat) (text : string) (inner : error).

Definition err_addr (e : error) : nat :=
  match e with
  | ErrorString a _ => a
  | WrapError a _ _ => a
  end.

(** [err.Error()] *)
Definition Error (e : error) : string :=
  match e with
  | ErrorString _ t => t
  | WrapError _ t _ => t
  end.

(** [errors.New(text)]: a fresh allocation. *)
Definition errors_New (text : string) (heap : nat) : error * nat :=
  (ErrorString heap text, S heap).

(** [errors.Is(err, target)]: walks the [Unwrap] chain of [err] and compares
    each link with [target] by [==]. *)
Fixpoint errors_Is (err target : error) : bool :=
  if Nat.eqb (err_addr err) (err_addr target) then true
  else match err with
       | ErrorString _ _ => false
       | WrapError _ _ inner => errors_Is inner target
       end.

(** Every address in the chain of an error. *)
Fixpoint err_addrs (e : error) : list nat :=
  match e with
  | ErrorString a _ => [a]
  | WrapError a _ inner => a :: err_addrs inner
  end.

(** A Go result pair [(v, err)] of which the caller reads [v] only when
    [err == nil]. *)
Inductive result (A : Type) : Type :=
| Ok (a : A)
| Err (e : error).
Arguments Ok {A} a.
Arguments Err {A} e.

(** A value of type [any] ([interface{}]), by dynamic type. *)
Inductive any : Type :=
| AnyNil
| AnyString (s : string)
| AnyInt64 (z : Z)
| AnyInt (z : Z)
| AnyFloat64 (bits : Z)
| AnyBool (b : bool).

(** [v != s] for [v : any] and [s : string] is the negation of this. *)
Definition any_eq_string (v : any) (s : string) : bool :=
  match v with
  | AnyString s' => String.eqb s' s
  | _ => false
  end.

(** [v.(int64)] in its comma-ok form. *)
Definition assert_int64 (v : any) : Z * bool :=
  match v with
  | AnyInt64 z => (z, true)
  | _ => (0, false)
  end.

(** [m[k]] on a [map[string]any]: the zero value [nil] for a missing key,
    also on a nil map. *)
Definition map_index (m : gmap string any) (k : string) : any :=
  default AnyNil (m !! k).

(** [url.Values.Get]: the empty string for a missing key. *)
Definition Get (q : gmap string string) (k : string) : string :=
  default "" (q !! k).

(** ** Time *)

(** A [time.Time] is kept as its [Unix()] seconds; the handlers compare
    times only through [Unix()]. *)
Definition zeroTime : Z := -62135596800.
Definition Hour : Z := 3600.
Definition Minute : Z := 60.

(** ** The identity record, [models.User] *)

(** Modelled from the spec: the declaration of [models.User] (package
    [internal/models]) is missing from the sources; the fields are the ones
    the handlers read and write, with the types they are used at. *)
Record User : Type := mkUser {
  ID : string;
  Email : string;
  Password : string;
  PasswordSalt : string;
  PasswordUpdatedOn : Z;
  EmailVerified : bool;
  EmailVerifiedAt : Z;
  EmailVerifyToken : string;
  EmailVerifyTokenExpiresAt : Z;
  PasswordResetToken : string;
  PasswordResetTokenExpiresAt : Z;
  LastLogin : Z
}.

(** The zero value [models.User{}]. *)
Definition zeroUser : User :=
  mkUser "" "" "" "" zeroTime false zeroTime "" zeroTime "" zeroTime 0.

Definition set_Email (v : string) (u : User) : User :=
  mkUser (ID u) v (Password u) (PasswordSalt u) (PasswordUpdatedOn u)
    (EmailVerified u) (EmailVerifiedAt u) (EmailVerifyToken u)
    (EmailVerifyTokenExpiresAt u) (PasswordResetToken u)
    (PasswordResetTokenExpiresAt u) (LastLogin u).

Definition set_Password (v : string) (u : User) : User :=
  mkUser (ID u) (Email u) v (PasswordSalt u) (PasswordUpdatedOn u)
    (EmailVerified u) (EmailVerifiedAt u) (EmailVerifyToken u)
    (EmailVerifyTokenExpiresAt u) (PasswordResetToken u)
    (PasswordResetTokenExpiresAt u) (LastLogin u).

Definition set_PasswordSalt (v : string) (u : User) : User :=
  mkUser (ID u) (Email u) (Password u) v (PasswordUpdatedOn u)
    (EmailVerified u) (EmailVerifiedAt u) (EmailVerifyToken u)
    (EmailVerifyTokenExpiresAt u) (PasswordResetToken u)
    (PasswordResetTokenExpiresAt u) (LastLogin u).

Definition set_PasswordUpdatedOn (v : Z) (u : User) : User :=
  mkUser (ID u) (Email u) (Password u) (PasswordSalt u) v
    (EmailVerified u) (EmailVerifiedAt u) (EmailVerifyToken u)
    (EmailVerifyTokenExpiresAt u) (PasswordResetToken u)
    (PasswordResetTokenExpiresAt u) (LastLogin u).

Definition set_EmailVerified (v : bool) (u : User) : User :=
  mkUser (ID u) (Email u) (Password u) (PasswordSalt u) (PasswordUpdatedOn u)
    v (EmailVerifiedAt u) (EmailVerifyToken u)
    (EmailVerifyTokenExpiresAt u) (PasswordResetToken u)
    (PasswordResetTokenExpiresAt u) (LastLogin u).

Definition set_EmailVerifiedAt (v : Z) (u : User) : User :=
  mkUser (ID u) (Email u) (Password u) (PasswordSalt u) (PasswordUpdatedOn u)
    (EmailVerified u) v (EmailVerifyToken u)
    (EmailVerifyTokenExpiresAt u) (PasswordResetToken u)
    (PasswordResetTokenExpiresAt u) (LastLogin u).

Definition set_EmailVerifyToken (v : string) (u : User) : User :=
  mkUser (ID u) (Email u) (Password u) (PasswordSalt u) (PasswordUpdatedOn u)
    (EmailVerified u) (EmailVerifiedAt u) v
    (EmailVerifyTokenExpiresAt u) (PasswordResetToken u)
    (PasswordResetTokenExpiresAt u) (LastLogin u).

Definition set_EmailVerifyTokenExpiresAt (v : Z) (u : User) : User :=
  mkUser (ID u) (Email u) (Password u) (PasswordSalt u) (PasswordUpdatedOn u)
    (EmailVerified u) (EmailVerifiedAt u) (EmailVerifyToken u)
    v (PasswordResetToken u)
    (PasswordResetTokenExpiresAt u) (LastLogin u).

Definition set_PasswordResetToken (v : string) (u : User) : User :=
  mkUser (ID u) (Email u) (Password u) (PasswordSalt u) (PasswordUpdatedOn u)
    (EmailVerified u) (EmailVerifiedAt u) (EmailVerifyToken u)
    (EmailVerifyTokenExpiresAt u) v
    (PasswordResetTokenExpiresAt u) (LastLogin u).

Definition set_PasswordResetTokenExpiresAt (v : Z) (u : User) : User :=
  mkUser (ID u) (Email u) (Password u) (PasswordSalt u) (PasswordUpdatedOn u)
    (EmailVerified u) (EmailVerifiedAt u) (EmailVerifyToken u)
    (EmailVerifyTokenExpiresAt u) (PasswordResetToken u)
    v (LastLogin u).

Definition set_LastLogin (v : Z) (u : User) : User :=
  mkUser (ID u) (Email u) (Password u) (PasswordSalt u) (PasswordUpdatedOn u)
    (EmailVerified u) (EmailVerifiedAt u) (EmailVerifyToken u)
    (EmailVerifyTokenExpiresAt u) (PasswordResetToken u)
    (PasswordResetTokenExpiresAt u) v.

(** ** Responses, [utilities.JSON(w)...Send()] *)

Inductive ResponseStatus : Type :=
| ResponseSuccess
| ResponseFail
| ResponseError.

Definition StatusOK : Z := 200.
Definition StatusBadRequest : Z := 400.
Definition StatusInternalServerError : Z := 500.

(** What the caller sees.  A message that the handler does not set is the
    empty string; [Data] is set by a successful login only. *)
Record Response : Type := mkResponse {
  Status : ResponseStatus;
  StatusCode : Z;
  Message : string;
  Data : option (User * string)
}.

Definition JSON (s : ResponseStatus) (code : Z) (msg : string) : Response :=
  mkResponse s code msg None.

Definition SetData (u : User) (token : string) (r : Response) : Response :=
  mkResponse (Status r) (StatusCode r) (Message r) (Some (u, token)).

(** A request: the query string and the JSON body, which either decodes into
    the handler's request struct or not. *)
Record Request (B : Type) : Type := mkRequest {
  Query : gmap string string;
  Body : result B
}.
Arguments mkRequest {B} _ _.
Arguments Query {B} _.
Arguments Body {B} _.

(** ** The random source, [utilities.Generate] *)

(** The entropy the process will draw, as a stream with a cursor. *)
Record Rand : Type := mkRand {
  stream : nat -> ascii;
  pos : nat
}.

Fixpoint draw (n : nat) (s : nat -> ascii) (p : nat) : string :=
  match n with
  | O => EmptyString
  | S k => String (s p) (draw k s (S p))
  end.

(** ** Calls to the collaborators *)

Inductive Call : Type :=
| CallFindFirst (email : string)
| CallFirst (email : string)
| CallUpdateOne (email : string) (u : User)
| CallSave (u : User)
| CallNotify (email token : string)
| CallHash (password salt : string)
| CallCompare (password salt digest : string)
| CallSign (subject : string)
| CallEncrypt (claims : gmap string any)
| CallDecrypt (token : string).

(** ** The store contract, [database.Model[models.User]] *)

(** The queries are always filtered by email: [FindFirst e] stands for
    [Filter(SetParams(SetFilter("email", e))).FindFirst()], and likewise
    [First] and [UpdateOne]. *)
Class Model (S : Type) : Type := {
  FindFirst : string -> S -> result User;
  First : string -> S -> result User;
  UpdateOne : string -> User -> S -> option error * S;
  Save : User -> S -> option error * S
}.

(** ** The world and the handler monad *)

Record World (S : Type) : Type := mkWorld {
  store : S;
  clock : Z;
  rand : Rand;
  heap : nat;
  calls : list Call
}.
Arguments mkWorld {S} _ _ _ _ _.
Arguments store {S} _.
Arguments clock {S} _.
Arguments rand {S} _.
Arguments heap {S} _.
Arguments calls {S} _.

Definition M (S A : Type) : Type := World S -> A * World S.

Definition ret {S A : Type} (a : A) : M S A := fun w => (a, w).

Definition bind {S A B : Type} (m : M S A) (k : A -> M S B) : M S B :=
  fun w => let (a, w') := m w in k a w'.

Declare Scope go_scope.
Delimit Scope go_scope with go.
Notation "x <- m ;; k" := (bind m (fun x => k))
  (at level 100, m at next level, right associativity) : go_scope.
Local Open Scope go_scope.

(** [time.Now().UTC().Unix()] *)
Definition time_Now {S : Type} : M S Z := fun w => (clock w, w).

(** Modelled from the spec: [utilities.Generate(n)] (an external module) is
    a random string of [n] characters. *)
Definition Generate {S : Type} (n : nat) : M S string :=
  fun w =>
    let r := rand w in
    (draw n (stream r) (pos r),
     mkWorld (store w) (clock w) (mkRand (stream r) (pos r + n)%nat)
       (heap w) (calls w)).

(** [uuid.New().String()]: sixteen random bytes; the version and variant bits
    and the textual form are not modelled. *)
Definition uuid_New {S : Type} : M S string := Generate 16.

Definition alloc_error {S : Type} (text : string) : M S error :=
  fun w =>
    let (e, h) := errors_New text (heap w) in
    (e, mkWorld (store w) (clock w) (rand w) h (calls w)).

Definition store_FindFirst {S : Type} `{Model S} (email : string)
  : M S (result User) :=
  fun w =>
    (FindFirst email (store w),
     mkWorld (store w) (clock w) (rand w) (heap w)
       (calls w ++ [CallFindFirst email])).

Definition store_First {S : Type} `{Model S} (email : string)
  : M S (result User) :=
  fun w =>
    (First email (store w),
     mkWorld (store w) (clock w) (rand w) (heap w)
       (calls w ++ [CallFirst email])).

Definition store_UpdateOne {S : Type} `{Model S} (email : string) (u : User)
  : M S (option error) :=
  fun w =>
    let (e, s) := UpdateOne email u (store w) in
    (e, mkWorld s (clock w) (rand w) (heap w)
          (calls w ++ [CallUpdateOne email u])).

Definition store_Save {S : Type} `{Model S} (u : User) : M S (option error) :=
  fun w =>
    let (e, s) := Save u (store w) in
    (e, mkWorld s (clock w) (rand w) (heap w) (calls w ++ [CallSave u])).

(** ** Routing surface, [chi.Router] *)

(** A router is the list of the routes installed so far, each a method and a
    pattern, in the order of installation. *)
Record Route : Type := mkRoute {
  route_method : string;
  route_pattern : string
}.

(** [r.Post(pattern, handler)] *)
Definition Post (pattern : string) (r : list Route) : list Route :=
  r ++ [mkRoute "POST" pattern].

(** * Package [password] *)

Module Password.

(** [type Action string] and its constants. *)
Definition verify : string := "verify".
Definition resend : string := "resend".
Definition reset : string := "reset".

Record loginRequest : Type := mkLoginRequest {
  login_Email : string;
  login_Password : string
}.

Record registerRequest : Type := mkRegisterRequest {
  register_Email : string;
  register_Password : string
}.

Record resetPasswordRequest : Type := mkResetPasswordRequest {
  reset_Email : string;
  reset_Token : string;
  reset_NewPassword : string
}.

Record verifyEmailRequest : Type := mkVerifyEmailRequest {
  verify_Email : string;
  verify_Token : string
}.

(** [type Hasher interface].  [compare] may allocate the error it returns,
    so it threads the heap's next free address. *)
Record Hasher : Type := mkHasher {
  hash : string -> string -> string;
  compare : string -> string -> string -> nat -> option error * nat
}.

(** [subtle.ConstantTimeCompare]: 1 when the two byte strings are equal, 0
    otherwise. *)
Definition ConstantTimeCompare (x y : string) : Z :=
  if String.eqb x y then 1 else 0.

(** [argonHasher], over the key derivation function [argon2.IDKey]
    (password, salt, time, memory, threads, key length). *)
Definition argonHasher (IDKey : string -> string -> Z -> Z -> Z -> Z -> string)
  : Hasher :=
  mkHasher
    (fun password salt => IDKey password salt 2 (19 * 1024) 1 32)
    (fun password salt compare heap =>
       let pass := IDKey password salt 2 (19 * 1024) 1 32 in
       if negb (Z.eqb (ConstantTimeCompare pass compare) 1) then
         let (e, heap') := errors_New "passwords don't Match" heap in
         (Some e, heap')
       else (None, heap)).

(** The claims handed to [jwt.Sign]. *)
Record JWTClaims : Type := mkJWTClaims {
  Issuer : string;
  Audience : string;
  Subject : string;
  Expiration : Z
}.

(** [PasswordProviderConfig] once configured: [notify] and [jwt] are set.
    The field [store] is the store of the [World]. *)
Record PasswordProviderConfig : Type := mkConfig {
  issuer : string;
  audience : string;
  hasher : Hasher;
  notify : string -> string -> option error;
  jwt_Sign : JWTClaims -> result string
}.

Section Handlers.
Context {S : Type} `{Model S}.
Variable cfg : PasswordProviderConfig.

Definition call_notify (email token : string) : M S (option error) :=
  fun w =>
    (notify cfg email token,
     mkWorld (store w) (clock w) (rand w) (heap w)
       (calls w ++ [CallNotify email token])).

Definition call_hash (password salt : string) : M S string :=
  fun w =>
    (hash (hasher cfg) password salt,
     mkWorld (store w) (clock w) (rand w) (heap w)
       (calls w ++ [CallHash password salt])).

Definition call_compare (password salt digest : string) : M S (option error) :=
  fun w =>
    let (e, h) := compare (hasher cfg) password salt digest (heap w) in
    (e, mkWorld (store w) (clock w) (rand w) h
          (calls w ++ [CallCompare password salt digest])).

Definition call_Sign (c : JWTClaims) : M S (result string) :=
  fun w =>
    (jwt_Sign cfg c,
     mkWorld (store w) (clock w) (rand w) (heap w)
       (calls w ++ [CallSign (Subject c)])).

(** The response every handler sends for an error [err] of a collaborator
    after the body was decoded. *)
Definition fail (err : error) : Response :=
  JSON ResponseFail StatusBadRequest (Error err).

(** [r.Post("/login", ...)] *)
Definition login (r : Request loginRequest) : M S Response :=
  let action := Get (Query r) "action" in
  match Body r with
  | Err err => ret (JSON ResponseError StatusInternalServerError (Error err))
  | Ok body =>
    found <- store_FindFirst (login_Email body) ;;
    match found with
    | Err err => ret (fail err)
    | Ok user =>
      let action := if negb (EmailVerified user) then verify else action in
      if String.eqb action verify then
        token <- Generate 4 ;;
        now <- time_Now ;;
        let user := set_EmailVerifyToken token user in
        let user := set_EmailVerifyTokenExpiresAt (now + Hour * 2) user in
        uerr <- store_UpdateOne (Email user) user ;;
        match uerr with
        | Some err => ret (fail err)
        | None =>
          nerr <- call_notify (Email user) token ;;
          match nerr with
          | Some err => ret (fail err)
          | None =>
            ret (JSON ResponseSuccess StatusOK
                   "your email is yet to be verified, please check your email for verification code")
          end
        end
      else
        cerr <- call_compare (login_Password body) (PasswordSalt user)
                  (Password user) ;;
        match cerr with
        | Some err => ret (fail err)
        | None =>
          now <- time_Now ;;
          let user := set_LastLogin now user in
          uerr <- store_UpdateOne (Email user) user ;;
          match uerr with
          | Some err => ret (fail err)
          | None =>
            now' <- time_Now ;;
            signed <- call_Sign (mkJWTClaims (issuer cfg) (audience cfg)
                                   (ID user) (now' + Hour * 24 * 30)) ;;
            match signed with
            | Err err => ret (fail err)
            | Ok jwtToken =>
              ret (SetData user jwtToken
                     (JSON ResponseSuccess StatusOK "successfull login attempt"))
            end
          end
        end
    end
  end.

(** [r.Post("/register", ...)] *)
Definition register (r : Request registerRequest) : M S Response :=
  match Body r with
  | Err err =>
    ret (JSON ResponseError StatusInternalServerError
           (Error err +:+ "unable to get user details"))
  | Ok body =>
    id <- uuid_New ;;
    salt <- Generate 16 ;;
    token <- Generate 4 ;;
    now <- time_Now ;;
    let user :=
      mkUser id (register_Email body) "" salt zeroTime false zeroTime
        token (now + Hour * 2) "" zeroTime 0 in
    hashedPassword <- call_hash (register_Password body) (PasswordSalt user) ;;
    let user := set_Password hashedPassword user in
    serr <- store_Save user ;;
    match serr with
    | Some err =>
      ret (JSON ResponseError StatusInternalServerError (Error err))
    | None =>
      nerr <- call_notify (Email user) (EmailVerifyToken user) ;;
      match nerr with
      | Some err => ret (fail err)
      | None =>
        ret (JSON ResponseSuccess StatusOK
               "your verification code has been resent")
      end
    end
  end.

(** [r.Post("/password-reset", ...)] *)
Definition password_reset (r : Request resetPasswordRequest) : M S Response :=
  let action := Get (Query r) "action" in
  match Body r with
  | Err err => ret (JSON ResponseError StatusInternalServerError (Error err))
  | Ok body =>
    found <- store_FindFirst (reset_Email body) ;;
    match found with
    | Err err => ret (fail err)
    | Ok user =>
      if String.eqb action reset then
        token <- Generate 6 ;;
        now <- time_Now ;;
        let user := set_PasswordResetToken token user in
        let user := set_PasswordResetTokenExpiresAt (now + Hour * 1) user in
        uerr <- store_UpdateOne (Email user) user ;;
        match uerr with
        | Some err => ret (fail err)
        | None =>
          nerr <- call_notify (Email user) token ;;
          match nerr with
          | Some err => ret (fail err)
          | None =>
            ret (JSON ResponseSuccess StatusOK "your reset code has been sent")
          end
        end
      else if negb (String.eqb (reset_Token body) (PasswordResetToken user)) then
        ret (JSON ResponseFail StatusBadRequest "invalid reset token")
      else
        now <- time_Now ;;
        if Z.gtb now (PasswordResetTokenExpiresAt user) then
          token <- Generate 6 ;;
          now' <- time_Now ;;
          let user := set_PasswordResetToken token user in
          let user := set_PasswordResetTokenExpiresAt (now' + Hour * 1) user in
          uerr <- store_UpdateOne (Email user) user ;;
          match uerr with
          | Some err => ret (fail err)
          | None =>
            nerr <- call_notify (Email user) (EmailVerifyToken user) ;;
            match nerr with
            | Some err => ret (fail err)
            | None =>
              ret (JSON ResponseFail StatusBadRequest
                     "token is expired, a new one has been sent to your mail")
            end
          end
        else
          let user := set_PasswordResetToken "" user in
          salt <- Generate 16 ;;
          let user := set_PasswordSalt salt user in
          hashed <- call_hash (reset_NewPassword body) (PasswordSalt user) ;;
          let user := set_Password hashed user in
          now' <- time_Now ;;
          let user := set_PasswordUpdatedOn now' user in
          uerr <- store_UpdateOne (Email user) user ;;
          match uerr with
          | Some err => ret (fail err)
          | None =>
            ret (JSON ResponseSuccess StatusOK
                   "password changed, redirect to login")
          end
    end
  end.

(** [r.Post("/email-verify", ...)] *)
Definition email_verify (r : Request verifyEmailRequest) : M S Response :=
  let action := Get (Query r) "action" in
  match Body r with
  | Err err => ret (JSON ResponseError StatusInternalServerError (Error err))
  | Ok body =>
    found <- store_FindFirst (verify_Email body) ;;
    match found with
    | Err err => ret (fail err)
    | Ok user =>
      if String.eqb action resend then
        token <- Generate 4 ;;
        now <- time_Now ;;
        let user := set_EmailVerifyToken token user in
        let user := set_EmailVerifyTokenExpiresAt (now + Hour * 2) user in
        uerr <- store_UpdateOne (Email user) user ;;
        match uerr with
        | Some err => ret (fail err)
        | None =>
          nerr <- call_notify (Email user) token ;;
          match nerr with
          | Some err => ret (fail err)
          | None =>
            ret (JSON ResponseSuccess StatusOK
                   "your verification code has been resent")
          end
        end
      else if negb (String.eqb (verify_Token body) (EmailVerifyToken user)) then
        ret (JSON ResponseFail StatusBadRequest "invalid verification token")
      else
        now <- time_Now ;;
        if Z.gtb now (EmailVerifyTokenExpiresAt user) then
          token <- Generate 4 ;;
          now' <- time_Now ;;
          let user := set_EmailVerifyToken token user in
          let user := set_EmailVerifyTokenExpiresAt (now' + Hour * 2) user in
          uerr <- store_UpdateOne (Email user) user ;;
          match uerr with
          | Some err => ret (fail err)
          | None =>
            nerr <- call_notify (Email user) (EmailVerifyToken user) ;;
            match nerr with
            | Some err => ret (fail err)
            | None =>
              ret (JSON ResponseFail StatusBadRequest
                     "token is expired, a new one has been sent to your mail")
            end
          end
        else
          let user := set_EmailVerifyToken "" user in
          let user := set_EmailVerified true user in
          let user := set_EmailVerifyTokenExpiresAt zeroTime user in
          now' <- time_Now ;;
          let user := set_EmailVerifiedAt now' user in
          uerr <- store_UpdateOne (Email user) user ;;
          match uerr with
          | Some err => ret (fail err)
          | None =>
            ret (JSON ResponseSuccess StatusOK
                   "email successfully verified, redirect to login")
          end
    end
  end.

End Handlers.

(** The routes that [New(cfg).Init] installs. *)
Definition Init (r : list Route) : list Route :=
  Post "/email-verify" (Post "/password-reset" (Post "/register" (Post "/login" r))).

End Password.

(** * Package [passwordless] *)

Module Passwordless.

Definition authenticate : string := "authenticate".
Definition resend : string := "resend".

Record authenticateRequest : Type := mkAuthenticateRequest {
  auth_Email : string
}.

(** [PasswordlessProviderConfig]; [Encrypt] and [Decrypt] are the two
    methods of [cfg.encrypt], each returning Go's pair of a value and an
    error.  The field [store] is the store of the [World]. *)
Record PasswordlessProviderConfig : Type := mkConfig {
  notify : string -> string -> option error;
  Encrypt : gmap string any -> string * option error;
  Decrypt : string -> gmap string any * option error
}.

Section Handler.
Context {S : Type} `{Model S}.
Variable cfg : PasswordlessProviderConfig.

Definition call_notify (email token : string) : M S (option error) :=
  fun w =>
    (notify cfg email token,
     mkWorld (store w) (clock w) (rand w) (heap w)
       (calls w ++ [CallNotify email token])).

Definition call_Encrypt (claims : gmap string any)
  : M S (string * option error) :=
  fun w =>
    (Encrypt cfg claims,
     mkWorld (store w) (clock w) (rand w) (heap w)
       (calls w ++ [CallEncrypt claims])).

Definition call_Decrypt (token : string)
  : M S (gmap string any * option error) :=
  fun w =>
    (Decrypt cfg token,
     mkWorld (store w) (clock w) (rand w) (heap w)
       (calls w ++ [CallDecrypt token])).

(** The claims of a magic link: [{"email": email, "expiry": now + 10min}]. *)
Definition claims_of (email : string) (now : Z) : gmap string any :=
  <["email" := AnyString email]>
    (<["expiry" := AnyInt64 (now + Minute * 10)]> ∅).

(** Builds the claims, encrypts them, notifies, and sends [ok]; the errors
    of [Encrypt] and of [notify] are assigned to [_]. *)
Definition issue (email : string) (ok : Response) : M S Response :=
  now <- time_Now ;;
  let tokenValues := claims_of email now in
  encrypted <- call_Encrypt tokenValues ;;
  let token := fst encrypted in
  _ <- call_notify email token ;;
  ret ok.

(** [authorize(cfg)] *)
Definition authorize (r : Request authenticateRequest) : M S Response :=
  let action := Get (Query r) "action" in
  match Body r with
  | Err err => ret (JSON ResponseError StatusInternalServerError "")
  | Ok body =>
    if String.eqb action authenticate then
      let token := Get (Query r) "token" in
      if String.eqb token "" then
        ret (JSON ResponseError StatusBadRequest "")
      else
        decrypted <- call_Decrypt token ;;
        let tokenValues := fst decrypted in
        if negb (any_eq_string (map_index tokenValues "email") (auth_Email body))
        then ret (JSON ResponseError StatusBadRequest "")
        else
          let timestamp := fst (assert_int64 (map_index tokenValues "expiry")) in
          now <- time_Now ;;
          if Z.gtb now timestamp then
            ret (JSON ResponseError StatusBadRequest
                   "validation token has expire, please try again")
          else
            found <- store_First (auth_Email body) ;;
            match found with
            | Err _ => ret (JSON ResponseError StatusBadRequest "user not found")
            | Ok user =>
              now' <- time_Now ;;
              let user := set_LastLogin now' user in
              let user :=
                if negb (EmailVerified user) then set_EmailVerified true user
                else user in
              uerr <- store_UpdateOne (auth_Email body) user ;;
              match uerr with
              | Some _ =>
                ret (JSON ResponseError StatusBadRequest "user not updated")
              | None => ret (JSON ResponseSuccess StatusOK "")
              end
            end
    else if String.eqb action resend then
      found <- store_First (auth_Email body) ;;
      match found with
      | Err _ => ret (JSON ResponseError StatusBadRequest "user not found")
      | Ok _ => issue (auth_Email body) (JSON ResponseSuccess StatusOK "")
      end
    else
      found <- store_First (auth_Email body) ;;
      saved <-
        match found with
        | Ok _ => ret None
        | Err err =>
          target <- alloc_error "doc not found" ;;
          if errors_Is err target then
            store_Save (set_Email (auth_Email body) zeroUser)
          else ret None
        end ;;
      match saved with
      | Some _ => ret (JSON ResponseError StatusBadRequest "")
      | None =>
        issue (auth_Email body)
          (JSON ResponseSuccess StatusOK
             "please check your email for authentication link")
      end
  end.

End Handler.

(** The route that [New(cfg).Init] installs. *)
Definition Init (r : list Route) : list Route :=
  Post "/magic-link/authorize" r.

End Passwordless.

(** * Package [authentication] *)

Module Authentication.

(** [sessions.Session]: the default of [New] is [server.NewServerSession()];
    any other implementation is named. *)
Inductive Session : Type :=
| ServerSession
| OtherSession (name : string).

(** Modelled from the spec: the declaration of [strategy.Provider] is missing
    from the sources.  [Build] calls [p.Init(a.router, a.session)] as a
    statement, which Go allows whatever [Init] returns; the spec speaks of an
    installation that can fail, so the hook's result type [R] is left open.
    The hook installs routes on the router it is given. *)
Record Provider (R : Type) : Type := mkProvider {
  Name : string;
  Init : list Route -> Session -> list Route * R
}.
Arguments mkProvider {R} _ _.
Arguments Name {R} _.
Arguments Init {R} _ _ _.

Record Auth (R : Type) : Type := mkAuth {
  providers : list (Provider R);
  router : list Route;
  session : Session
}.
Arguments mkAuth {R} _ _ _.
Arguments providers {R} _.
Arguments router {R} _.
Arguments session {R} _.

(** [type Options], a function on a pointer to [Auth] *)
Definition Options (R : Type) : Type := Auth R -> Auth R.

Definition New {R : Type} (r : list Route) (opts : list (Options R)) : Auth R :=
  fold_left (fun cfg opt => opt cfg) opts (mkAuth [] r ServerSession).

Definition RegisterStrategy {R : Type} (provider : Provider R) : Options R :=
  fun a => mkAuth (providers a ++ [provider]) (router a) (session a).

Definition RegisterSession {R : Type} (s : Session) : Options R :=
  fun a => mkAuth (providers a) (router a) s.

(** One call of an installation hook: whose it was and what it was given. *)
Record Install : Type := mkInstall {
  install_name : string;
  install_router : list Route;
  install_session : Session
}.

(** The loop of [Build]: calls each hook on the router as the previous hooks
    left it, and drops what the hook returns. *)
Fixpoint Build_range {R : Type} (ps : list (Provider R)) (s : Session)
  (r : list Route) : list Route * list Install :=
  match ps with
  | [] => (r, [])
  | p :: ps' =>
    let (r', _) := Init p r s in
    let (r'', log) := Build_range ps' s r' in
    (r'', mkInstall (Name p) r s :: log)
  end.

(** [(a *Auth) Build() error]: the router after the loop, the hooks called,
    and the returned error. *)
Definition Build {R : Type} (a : Auth R)
  : list Route * list Install * option error :=
  let (r, log) := Build_range (providers a) (session a) (router a) in
  (r, log, None).

End Authentication.

(** * A store in memory *)

(** Modelled from the spec: the store contract ([findByEmail] gives the
    identity or not-found, [save] fails on a duplicate email, [update]
    fails when no identity matches the filter), as a finite map keyed by
    email.  The two errors are package-level values, allocated once. *)
Definition ErrNotFound : error := ErrorString 0 "doc not found".
Definition ErrDuplicate : error := ErrorString 1 "duplicate key".

Definition mem_find (email : string) (s : gmap string User) : result User :=
  match s !! email with
  | Some u => Ok u
  | None => Err ErrNotFound
  end.

Definition mem_update (email : string) (u : User) (s : gmap string User)
  : option error * gmap string User :=
  match s !! email with
  | Some _ => (None, <[Email u := u]> (delete email s))
  | None => (Some ErrNotFound, s)
  end.

Definition mem_save (u : User) (s : gmap string User)
  : option error * gmap string User :=
  match s !! Email u with
  | Some _ => (Some ErrDuplicate, s)
  | None => (None, <[Email u := u]> s)
  end.

#[global] Instance MemStore : Model (gmap string User) := {
  FindFirst := mem_find;
  First := mem_find;
  UpdateOne := mem_update;
  Save := mem_save
}.

(** * Fixtures: concrete collaborators and identities *)

Definition ErrDelivery : error := ErrorString 2 "mail server unreachable".

(** The first address free after the package-level errors. *)
Definition heap1 : nat := 3.

(** A stand-in for [argon2.IDKey]: any function of password and salt does
    for the handlers, which never look inside a digest. *)
Definition toyIDKey (password salt : string) (_ _ _ _ : Z) : string :=
  salt +:+ "$" +:+ password.

Definition notify_ok (email token : string) : option error := None.
Definition notify_down (email token : string) : option error := Some ErrDelivery.

Definition toySign (c : Password.JWTClaims) : result string :=
  Ok ("jwt." +:+ Password.Subject c).

Definition pcfg : Password.PasswordProviderConfig :=
  Password.mkConfig "demo-issuer" "demo-audience"
    (Password.argonHasher toyIDKey) notify_ok toySign.

Definition pcfg_down : Password.PasswordProviderConfig :=
  Password.mkConfig "demo-issuer" "demo-audience"
    (Password.argonHasher toyIDKey) notify_down toySign.

(** Entropy that spells the decimal digits in turn. *)
Definition digits (n : nat) : ascii := ascii_of_nat (48 + n mod 10).

(** A verified identity with password [pw1] that holds an expired reset
    token and an older email-verify token. *)
Definition alice : User :=
  mkUser "id-alice" "a@x.com" "salt$pw1" "salt" 1000 true 1000
    "1234" 5000 "T1T1T1" 6000 0.

(** An identity verified through [/email-verify]: no token of either kind,
    both expiries zero. *)
Definition bob : User :=
  mkUser "id-bob" "b@x.com" "salt$pw1" "salt" zeroTime true 1000
    "" zeroTime "" zeroTime 0.

Definition world_of (s : gmap string User) (now : Z) : World (gmap string User) :=
  mkWorld s now (mkRand digits 0) heap1 [].

Definition query_of (action : string) : gmap string string :=
  if String.eqb action "" then ∅ else {["action" := action]}.

(** A codec for examples: it knows two tokens, one whose expiry is an
    [int64] and one whose expiry came back from deserialization as a
    [float64]; every other string fails to decode. *)
Definition ErrDecode : error := ErrorString 2 "message authentication failed".

Definition toyDecrypt (token : string) : gmap string any * option error :=
  if String.eqb token "tok-int64" then
    (<["email" := AnyString "a@x.com"]> (<["expiry" := AnyInt64 2000000000]> ∅), None)
  else if String.eqb token "tok-float64" then
    (<["email" := AnyString "a@x.com"]> (<["expiry" := AnyFloat64 2000000000]> ∅), None)
  else (∅, Some ErrDecode).

Definition toyEncrypt (claims : gmap string any) : string * option error :=
  ("tok-int64", None).

Definition lcfg : Passwordless.PasswordlessProviderConfig :=
  Passwordless.mkConfig notify_ok toyEncrypt toyDecrypt.

Definition lcfg_down : Passwordless.PasswordlessProviderConfig :=
  Passwordless.mkConfig notify_down toyEncrypt toyDecrypt.

(** An identity whose reset token was consumed less than an hour before the
    clock reads 7000: the token is empty, its expiry is still ahead. *)
Definition carol : User :=
  mkUser "id-carol" "c@x.com" "salt$pw1" "salt" 6500 true 1000
    "" zeroTime "" 9000 0.

(** An identity that registered and has not verified its email yet. *)
Definition dave : User :=
  mkUser "id-dave" "d@x.com" "salt$pw1" "salt" zeroTime false zeroTime
    "4321" 9000 "" zeroTime 0.

(** * Vocabulary of the statements *)

(** The calls a handler made, given the world before and after it. *)
Definition new_calls {S : Type} (w w' : World S) : list Call :=
  drop (length (calls w)) (calls w').

(** The handler asked the store to write [u], by [UpdateOne] or [Save]. *)
Definition written {S : Type} (w w' : World S) (u : User) : Prop :=
  (exists email, In (CallUpdateOne email u) (new_calls w w')) \/
  In (CallSave u) (new_calls w w').

(** The next [n] characters of entropy in [w]. *)
Definition fresh {S : Type} (n : nat) (w : World S) : string :=
  draw n (stream (rand w)) (pos (rand w)).

(** A verify token of four characters paired with the expiry [now + 2h], a
    reset token of six characters paired with the expiry [now + 1h], and
    the verify pair cleared. *)
Definition verify_pair_issued (now : Z) (u : User) : Prop :=
  String.length (EmailVerifyToken u) = 4%nat /\
  EmailVerifyTokenExpiresAt u = now + Hour * 2 /\
  EmailVerifyTokenExpiresAt u <> zeroTime.

Definition reset_pair_issued (now : Z) (u : User) : Prop :=
  String.length (PasswordResetToken u) = 6%nat /\
  PasswordResetTokenExpiresAt u = now + Hour * 1 /\
  PasswordResetTokenExpiresAt u <> zeroTime.

Definition verify_pair_cleared (u : User) : Prop :=
  EmailVerifyToken u = "" /\ EmailVerifyTokenExpiresAt u = zeroTime.

(** Handler [h] surfaces a failure of [notify]: whenever it called the
    notifier and the notifier answered with an error, the response is the
    failure carrying that error. *)
Definition notifier_failure_surfaces {S B : Type}
  (notify : string -> string -> option error)
  (h : Request B -> M S Response) : Prop :=
  forall (r : Request B) (w : World S) (email token : string) (err : error),
    In (CallNotify email token) (new_calls w (snd (h r w))) ->
    notify email token = Some err ->
    fst (h r w) = Password.fail err.

(** The data-model invariant on one identity and on a store. *)
Definition verified_without_token (u : User) : Prop :=
  EmailVerified u = true -> EmailVerifyToken u = "".

Definition store_ok (s : gmap string User) : Prop :=
  map_Forall (fun _ u => verified_without_token u) s.

(** Requests in sequence, and the clock moving between them. *)
Inductive Step : Type :=
| Login (r : Request Password.loginRequest)
| Register (r : Request Password.registerRequest)
| PasswordReset (r : Request Password.resetPasswordRequest)
| EmailVerify (r : Request Password.verifyEmailRequest)
| Authorize (r : Request Passwordless.authenticateRequest)
| Tick (seconds : N).

Definition step {S : Type} `{Model S}
  (pc : Password.PasswordProviderConfig)
  (lc : Passwordless.PasswordlessProviderConfig)
  (st : Step) (w : World S) : World S :=
  match st with
  | Login r => snd (Password.login pc r w)
  | Register r => snd (Password.register pc r w)
  | PasswordReset r => snd (Password.password_reset pc r w)
  | EmailVerify r => snd (Password.email_verify pc r w)
  | Authorize r => snd (Passwordless.authorize lc r w)
  | Tick n =>
    mkWorld (store w) (clock w + Z.of_N n) (rand w) (heap w) (calls w)
  end.

Definition run {S : Type} `{Model S}
  (pc : Password.PasswordProviderConfig)
  (lc : Passwordless.PasswordlessProviderConfig)
  (sts : list Step) (w : World S) : World S :=
  fold_left (fun w st => step pc lc st w) sts w.

(** Whether the identity stored under [email] is verified. *)
Definition is_verified (s : gmap string User) (email : string) : bool :=
  match s !! email with
  | Some u => EmailVerified u
  | None => false
  end.

(** Whether the identity stored under [email] holds no verify token. *)
Definition holds_no_verify_token (s : gmap string User) (email : string)
  : bool :=
  match s !! email with
  | Some u => String.eqb (EmailVerifyToken u) ""
  | None => true
  end.

(** Whether the expiry stored with the verify token of [email] has passed
    at [now]. *)
Definition verify_expiry_passed (s : gmap string User) (email : string)
  (now : Z) : bool :=
  match s !! email with
  | Some u => Z.gtb now (EmailVerifyTokenExpiresAt u)
  | None => false
  end.

(** The requests that, in world [w], neither hand a verify token to a
    verified identity nor verify an identity that holds one.  For a
    verified identity: a login does not ask for [action=verify], an
    email-verify does not ask for [action=resend], and it submits the empty
    token only while the stored expiry has not passed.  The authenticate
    action of the magic link is asked for an identity that is verified
    already or that holds no verify token.  Everything else is allowed. *)
Definition guarded (st : Step) (w : World (gmap string User)) : bool :=
  match st with
  | Login r =>
    match Body r with
    | Ok b =>
      negb (String.eqb (Get (Query r) "action") Password.verify)
      || negb (is_verified (store w) (Password.login_Email b))
    | Err _ => true
    end
  | Register _ => true
  | PasswordReset _ => true
  | EmailVerify r =>
    match Body r with
    | Ok b =>
      negb (is_verified (store w) (Password.verify_Email b))
      || (negb (String.eqb (Get (Query r) "action") Password.resend)
          && (negb (String.eqb (Password.verify_Token b) "")
              || negb (verify_expiry_passed (store w)
                         (Password.verify_Email b) (clock w))))
    | Err _ => true
    end
  | Authorize r =>
    match Body r with
    | Ok b =>
      negb (String.eqb (Get (Query r) "action") Passwordless.authenticate)
      || is_verified (store w) (Passwordless.auth_Email b)
      || holds_no_verify_token (store w) (Passwordless.auth_Email b)
    | Err _ => true
    end
  | Tick _ => true
  end.

(** Every step of [sts] is guarded in the world it meets. *)
Fixpoint all_guarded
  (pc : Password.PasswordProviderConfig)
  (lc : Passwordless.PasswordlessProviderConfig)
  (sts : list Step) (w : World (gmap string User)) : bool :=
  match sts with
  | [] => true
  | st :: rest =>
    guarded st w && all_guarded pc lc rest (step pc lc st w)
  end.

(** Providers for [Build]: the two strategies, whose hooks cannot fail, and
    one whose installation fails. *)
Definition ErrInstall : error := ErrorString 2 "route already installed".

Definition passwordProvider : Authentication.Provider (option error) :=
  Authentication.mkProvider "password" (fun r _ => (Password.Init r, None)).

Definition passwordlessProvider : Authentication.Provider (option error) :=
  Authentication.mkProvider "magic-link"
    (fun r _ => (Passwordless.Init r, None)).

Definition brokenProvider : Authentication.Provider (option error) :=
  Authentication.mkProvider "broken" (fun r _ => (r, Some ErrInstall)).



(** * Configuration of the password provider, [Config] and its options *)

Module PasswordConfig.

Section Fields.
Variables Store JWT : Type.

(** [PasswordProviderConfig] as [Config] builds it: the store, the notifier
    and the signer are nil until an option sets them. *)
Record Fields : Type := mkFields {
  issuer : string;
  audience : string;
  hash : Password.Hasher;
  store : option Store;
  notify : option (string -> string -> option error);
  jwt : option JWT
}.

Definition withJWT (j : JWT) (ppc : Fields) : Fields :=
  mkFields (issuer ppc) (audience ppc) (hash ppc) (store ppc) (notify ppc)
    (Some j).

Definition withModel (userModel : Store) (ppc : Fields) : Fields :=
  mkFields (issuer ppc) (audience ppc) (hash ppc) (Some userModel)
    (notify ppc) (jwt ppc).

Definition withNotifier (n : string -> string -> option error) (ppc : Fields)
  : Fields :=
  mkFields (issuer ppc) (audience ppc) (hash ppc) (store ppc) (Some n)
    (jwt ppc).

(** [Config(opts...)], over the key derivation function of [argonHasher]. *)
Definition Config (IDKey : string -> string -> Z -> Z -> Z -> Z -> string)
  (opts : list (Fields -> Fields)) : Fields :=
  fold_left (fun cfg opt => opt cfg) opts
    (mkFields "demo-issuer" "demo-audience" (Password.argonHasher IDKey)
       None None None).

(** The options the package offers. *)
Definition offered (opt : Fields -> Fields) : Prop :=
  (exists j, opt = withJWT j) \/
  (exists m, opt = withModel m) \/
  (exists n, opt = withNotifier n).

End Fields.

End PasswordConfig.

(** * More vocabulary *)

(** The store is keyed by the email of the identity it holds. *)
Definition well_keyed (s : gmap string User) : Prop :=
  map_Forall (fun e u => Email u = e) s.

(** The email that a request names in its body. *)
Definition named (st : Step) : option string :=
  match st with
  | Login r =>
    match Body r with Ok b => Some (Password.login_Email b) | Err _ => None end
  | Register r =>
    match Body r with
    | Ok b => Some (Password.register_Email b)
    | Err _ => None
    end
  | PasswordReset r =>
    match Body r with Ok b => Some (Password.reset_Email b) | Err _ => None end
  | EmailVerify r =>
    match Body r with Ok b => Some (Password.verify_Email b) | Err _ => None end
  | Authorize r =>
    match Body r with
    | Ok b => Some (Passwordless.auth_Email b)
    | Err _ => None
    end
  | Tick _ => None
  end.

(** The world [n] seconds later. *)
Definition later {S : Type} (n : N) (w : World S) : World S :=
  mkWorld (store w) (clock w + Z.of_N n) (rand w) (heap w) (calls w).

(** What a caller passes to [authentication.New]: strategies and sessions. *)
Inductive Registration (R : Type) : Type :=
| Strategy (p : Authentication.Provider R)
| SessionOf (s : Authentication.Session).
Arguments Strategy {R} p.
Arguments SessionOf {R} s.

Definition option_of {R : Type} (reg : Registration R)
  : Authentication.Options R :=
  match reg with
  | Strategy p => Authentication.RegisterStrategy p
  | SessionOf s => Authentication.RegisterSession s
  end.

Fixpoint strategies_of {R : Type} (regs : list (Registration R))
  : list (Authentication.Provider R) :=
  match regs with
  | [] => []
  | Strategy p :: rest => p :: strategies_of rest
  | SessionOf _ :: rest => strategies_of rest
  end.

(** The session registered last, [d] when none is. *)
Fixpoint session_of {R : Type} (d : Authentication.Session)
  (regs : list (Registration R)) : Authentication.Session :=
  match regs with
  | [] => d
  | Strategy _ :: rest => session_of d rest
  | SessionOf s :: rest => session_of s rest
  end.

(** A hook that only appends the routes [routes] to the router it is
    given. *)
Definition appends {R : Type} (p : Authentication.Provider R)
  (routes : list Route) : Prop :=
  forall r s, fst (Authentication.Init p r s) = r ++ routes.

(** * Proof tools *)

Ltac unfold_go :=
  unfold bind, ret, store_FindFirst, store_First, store_UpdateOne, store_Save,
    time_Now, uuid_New, Generate, alloc_error,
    Password.call_notify, Password.call_hash, Password.call_compare,
    Password.call_Sign, Passwordless.call_notify, Passwordless.call_Encrypt,
    Passwordless.call_Decrypt, Passwordless.issue in *.

Lemma new_calls_app {S : Type} (w w' : World S) (cs : list Call) :
  calls w' = calls w ++ cs -> new_calls w w' = cs.
Proof. intros E. unfold new_calls. rewrite E. apply drop_app_length. Qed.

Lemma new_calls_none {S : Type} (w w' : World S) :
  calls w' = calls w -> new_calls w w' = [].
Proof. intros E. unfold new_calls. rewrite E. apply drop_all. Qed.

(** Brings the calls of the world after a handler to the form
    [calls w ++ cs] and reads [cs] off. *)
Ltac read_calls :=
  first
    [ rewrite new_calls_none by reflexivity
    | erewrite new_calls_app;
      [ | simpl; rewrite <- ?app_assoc; simpl; reflexivity ] ].

Lemma draw_length (n : nat) (s : nat -> ascii) (p : nat) :
  String.length (draw n s p) = n.
Proof.
  revert p. induction n as [|n IH]; intros p; simpl; [reflexivity|].
  now rewrite IH.
Qed.

Lemma fresh_length {S : Type} (n : nat) (w : World S) :
  String.length (fresh n w) = n.
Proof. apply draw_length. Qed.

Lemma fresh_nonempty {S : Type} (n : nat) (w : World S) :
  fresh (Datatypes.S n) w <> "".
Proof. unfold fresh. simpl. discriminate. Qed.

Lemma eqb_false_of_neq (a b : string) : a <> b -> String.eqb a b = false.
Proof. apply String.eqb_neq. Qed.

Lemma gtb_true (a b : Z) : b < a -> Z.gtb a b = true.
Proof. intros. rewrite Z.gtb_ltb. now apply Z.ltb_lt. Qed.

Lemma gtb_false (a b : Z) : a <= b -> Z.gtb a b = false.
Proof. intros. rewrite Z.gtb_ltb. now apply Z.ltb_ge. Qed.

(** ** [errors.Is] against a fresh allocation *)

Lemma errors_Is_fresh (err : error) (text : string) (h : nat) :
  Forall (fun a => (a < h)%nat) (err_addrs err) ->
  errors_Is err (fst (errors_New text h)) = false.
Proof.
  induction err as [a t | a t inner IH]; simpl; intros Hall.
  - inversion Hall as [|? ? Ha _]; subst.
    destruct (Nat.eqb_spec a h); [lia | reflexivity].
  - inversion Hall as [|? ? Ha Hrest]; subst.
    destruct (Nat.eqb_spec a h); [lia | auto].
Qed.

(** * The password strategy *)

Section PasswordFacts.
Context {S : Type} `{Model S}.
Variable cfg : Password.PasswordProviderConfig.

(** ** Login *)

(** C8: a login whose fetched identity has [EmailVerified = false] takes the
    verify branch whatever the query string says, and never calls the
    hasher's [compare].  The branch is pinned in full: four characters of
    entropy are drawn for the token, the identity is written under its email
    with that token and the expiry now + 2h, and the outcome is one of
    three.  If the store refuses the write, the answer is its error as a
    failure 400 and the notifier is not called; if the notifier refuses, the
    answer is its error as a failure 400; otherwise the answer is the
    verification notice.  No answer carries the identity or a session
    token, and the clock and the heap are as they were. *)
Theorem login_unverified_takes_verify_branch
  (r : Request Password.loginRequest) (w : World S)
  (body : Password.loginRequest) (user : User) :
  Body r = Ok body ->
  FindFirst (Password.login_Email body) (store w) = Ok user ->
  EmailVerified user = false ->
  let token := fresh 4 w in
  let user' :=
    set_EmailVerifyTokenExpiresAt (clock w + Hour * 2)
      (set_EmailVerifyToken token user) in
  let after := fun (s' : S) (sent : list Call) =>
    mkWorld s' (clock w) (mkRand (stream (rand w)) (pos (rand w) + 4)%nat)
      (heap w)
      (calls w ++ CallFindFirst (Password.login_Email body)
                  :: CallUpdateOne (Email user) user' :: sent) in
  let out := Password.login cfg r w in
  (forall q, Password.login cfg (mkRequest q (Body r)) w = out) /\
  (forall p s d, ~ In (CallCompare p s d) (new_calls w (snd out))) /\
  Data (fst out) = None /\
  match UpdateOne (Email user) user' (store w) with
  | (Some e, s') => out = (Password.fail e, after s' [])
  | (None, s') =>
    match Password.notify cfg (Email user) token with
    | Some e =>
      out = (Password.fail e, after s' [CallNotify (Email user) token])
    | None =>
      out = (JSON ResponseSuccess StatusOK
               "your email is yet to be verified, please check your email for verification code",
             after s' [CallNotify (Email user) token])
    end
  end.
Proof.
  intros Hb Hf Hv token user' after out. subst out.
  assert (E : forall q, Password.login cfg (mkRequest q (Body r)) w =
                        Password.login cfg r w).
  { intros q. unfold Password.login. simpl. rewrite Hb. unfold_go. simpl.
    rewrite Hf. simpl. rewrite Hv. reflexivity. }
  split; [exact E|].
  subst after user' token. unfold fresh.
  unfold Password.login. rewrite Hb. unfold_go. simpl.
  rewrite Hf. simpl. rewrite Hv. simpl.
  destruct (UpdateOne _ _ _) as [[e|] s'] eqn:Hu; simpl.
  - read_calls. split; [intros p s d [C|[C|[]]]; discriminate C|].
    split; [reflexivity|]. now rewrite <- app_assoc.
  - destruct (Password.notify _ _ _) eqn:Hn; simpl; read_calls.
    all: split; [intros p s d [C|[C|[C|[]]]]; discriminate C|].
    all: split; [reflexivity|]; now rewrite <- !app_assoc.
Qed.

Lemma login_unverified_example :
  let r := mkRequest (query_of "login")
             (Ok (Password.mkLoginRequest "d@x.com" "pw1")) in
  let w := world_of {["d@x.com" := dave]} 7000 in
  fst (Password.login pcfg r w) =
    JSON ResponseSuccess StatusOK
      "your email is yet to be verified, please check your email for verification code".
Proof. vm_compute. reflexivity. Qed.

End PasswordFacts.

Lemma login_unverified_takes_verify_branch_witness :
  let r := mkRequest (query_of "login")
             (Ok (Password.mkLoginRequest "d@x.com" "pw1")) in
  let w := world_of {["d@x.com" := dave]} 7000 in
  let dave' := set_EmailVerifyTokenExpiresAt (7000 + 7200)
                 (set_EmailVerifyToken "0123" dave) in
  let out := Password.login pcfg r w in
  fst out = JSON ResponseSuccess StatusOK
              "your email is yet to be verified, please check your email for verification code" /\
  Data (fst out) = None /\
  store (snd out) !! "d@x.com" = Some dave' /\
  new_calls w (snd out) =
    [CallFindFirst "d@x.com"; CallUpdateOne "d@x.com" dave';
     CallNotify "d@x.com" "0123"].
Proof.
  intros r w dave' out.
  assert (Hf : FindFirst "d@x.com" (store w) = Ok dave) by reflexivity.
  destruct (login_unverified_takes_verify_branch pcfg r w
              (Password.mkLoginRequest "d@x.com" "pw1") dave
              eq_refl Hf eq_refl) as (_ & _ & Hd & Hout).
  fold out in Hd, Hout. clearbody out.
  vm_compute in Hout. subst out.
  split; [reflexivity|]. split; [reflexivity|].
  split; vm_compute; reflexivity.
Defined.

(** ** Login: identity not found against wrong secret *)

Section LoginFailures.
Context {S : Type} `{Model S}.
Variable cfg : Password.PasswordProviderConfig.

Lemma login_not_found (r : Request Password.loginRequest) (w : World S)
  (body : Password.loginRequest) (e : error) :
  Body r = Ok body ->
  FindFirst (Password.login_Email body) (store w) = Err e ->
  fst (Password.login cfg r w) = Password.fail e.
Proof.
  intros Hb Hf. unfold Password.login. rewrite Hb. unfold_go. simpl.
  now rewrite Hf.
Qed.

Lemma login_mismatch (r : Request Password.loginRequest) (w : World S)
  (body : Password.loginRequest) (user : User) (e : error) (h : nat) :
  Body r = Ok body ->
  FindFirst (Password.login_Email body) (store w) = Ok user ->
  EmailVerified user = true ->
  Get (Query r) "action" <> Password.verify ->
  Password.compare (Password.hasher cfg) (Password.login_Password body)
    (PasswordSalt user) (Password user) (heap w) = (Some e, h) ->
  fst (Password.login cfg r w) = Password.fail e.
Proof.
  intros Hb Hf Hv Ha Hc. unfold Password.login. rewrite Hb. unfold_go. simpl.
  rewrite Hf. simpl. rewrite Hv. simpl.
  rewrite (eqb_false_of_neq _ _ Ha). simpl. now rewrite Hc.
Qed.

(** C5, as the code has it: the response of a login whose identity is not
    found and the response of a login whose secret does not match have the
    same status, the same status code and no data; the message of each is
    the text of the error it met, the store's for the first and the hasher's
    for the second, so the two responses are equal exactly when the two
    error texts are. *)
Theorem login_not_found_vs_mismatch
  (r1 r2 : Request Password.loginRequest) (w1 w2 : World S)
  (b1 b2 : Password.loginRequest) (user : User) (e1 e2 : error) (h : nat) :
  Body r1 = Ok b1 ->
  FindFirst (Password.login_Email b1) (store w1) = Err e1 ->
  Body r2 = Ok b2 ->
  FindFirst (Password.login_Email b2) (store w2) = Ok user ->
  EmailVerified user = true ->
  Get (Query r2) "action" <> Password.verify ->
  Password.compare (Password.hasher cfg) (Password.login_Password b2)
    (PasswordSalt user) (Password user) (heap w2) = (Some e2, h) ->
  let a := fst (Password.login cfg r1 w1) in
  let b := fst (Password.login cfg r2 w2) in
  Status a = ResponseFail /\ Status b = ResponseFail /\
  StatusCode a = StatusBadRequest /\ StatusCode b = StatusBadRequest /\
  Data a = None /\ Data b = None /\
  Message a = Error e1 /\ Message b = Error e2 /\
  (a = b <-> Error e1 = Error e2).
Proof.
  intros Hb1 Hf1 Hb2 Hf2 Hv Ha Hc a b. subst a b.
  rewrite (login_not_found r1 w1 b1 e1 Hb1 Hf1).
  rewrite (login_mismatch r2 w2 b2 user e2 h Hb2 Hf2 Hv Ha Hc).
  unfold Password.fail, JSON. simpl.
  repeat (split; [reflexivity|]).
  split; [intros E; now inversion E | intros E; now rewrite E].
Qed.

End LoginFailures.

(** [argonHasher.compare] answers a wrong secret with an error whose text is
    fixed. *)
Lemma argonHasher_mismatch_text IDKey (password salt digest : string)
  (heap : nat) (e : error) (h : nat) :
  Password.compare (Password.argonHasher IDKey) password salt digest heap
    = (Some e, h) ->
  Error e = "passwords don't Match".
Proof.
  unfold Password.argonHasher. simpl.
  destruct (negb _); intros E; inversion E; reflexivity.
Qed.

Lemma login_not_found_vs_mismatch_witness :
  let r1 := mkRequest (query_of "")
              (Ok (Password.mkLoginRequest "z@x.com" "pw1")) in
  let r2 := mkRequest (query_of "")
              (Ok (Password.mkLoginRequest "a@x.com" "guess")) in
  let w := world_of {["a@x.com" := alice]} 7000 in
  let a := fst (Password.login pcfg r1 w) in
  let b := fst (Password.login pcfg r2 w) in
  Status a = ResponseFail /\ Status b = ResponseFail /\
  StatusCode a = StatusBadRequest /\ StatusCode b = StatusBadRequest /\
  Data a = None /\ Data b = None /\
  Message a = "doc not found" /\ Message b = "passwords don't Match" /\
  (a = b <-> "doc not found" = "passwords don't Match").
Proof.
  intros r1 r2 w.
  apply (login_not_found_vs_mismatch pcfg r1 r2 w w
           (Password.mkLoginRequest "z@x.com" "pw1")
           (Password.mkLoginRequest "a@x.com" "guess")
           alice ErrNotFound (ErrorString 3 "passwords don't Match") 4%nat).
  - reflexivity.
  - reflexivity.
  - reflexivity.
  - reflexivity.
  - reflexivity.
  - vm_compute. discriminate.
  - reflexivity.
Defined.

(** C5, as stated, fails: with the in-memory store and [argonHasher], an
    unknown email is answered "doc not found" and a wrong secret
    "passwords don't Match". *)
Lemma login_not_found_distinguishable :
  let r1 := mkRequest (query_of "")
              (Ok (Password.mkLoginRequest "z@x.com" "pw1")) in
  let r2 := mkRequest (query_of "")
              (Ok (Password.mkLoginRequest "a@x.com" "guess")) in
  let w := world_of {["a@x.com" := alice]} 7000 in
  FindFirst "z@x.com" (store w) = Err ErrNotFound /\
  FindFirst "a@x.com" (store w) = Ok alice /\
  Password (alice) <> Password.hash (Password.hasher pcfg) "guess" (PasswordSalt alice) /\
  Message (fst (Password.login pcfg r1 w)) = "doc not found" /\
  Message (fst (Password.login pcfg r2 w)) = "passwords don't Match" /\
  fst (Password.login pcfg r1 w) <> fst (Password.login pcfg r2 w).
Proof.
  vm_compute. repeat split; try discriminate.
Qed.

(** ** Password reset: the expired token *)

(** C1, at a failing input: alice holds the reset token [T1T1T1], expired at
    6000, and an older email-verify token [1234].  Consuming [T1T1T1] at
    7000 reports the expiry, leaves the password as it was and stores the
    new reset token [012345] with expiry 7000 + 1h, but the notifier is
    handed [1234], the stored email-verify token, not [012345]. *)
Theorem reset_expired_notifies_verify_token :
  let r := mkRequest (query_of "")
             (Ok (Password.mkResetPasswordRequest "a@x.com" "T1T1T1" "pw2")) in
  let w := world_of {["a@x.com" := alice]} 7000 in
  let out := Password.password_reset pcfg r w in
  let alice' :=
    set_PasswordResetTokenExpiresAt (7000 + 3600)
      (set_PasswordResetToken "012345" alice) in
  fst out = JSON ResponseFail StatusBadRequest
              "token is expired, a new one has been sent to your mail" /\
  store (snd out) !! "a@x.com" = Some alice' /\
  Password alice' = Password alice /\
  new_calls w (snd out) =
    [CallFindFirst "a@x.com"; CallUpdateOne "a@x.com" alice';
     CallNotify "a@x.com" "1234"] /\
  EmailVerifyToken alice = "1234" /\
  PasswordResetToken alice' <> "1234".
Proof.
  vm_compute. repeat split; discriminate.
Qed.

(** C10, at two failing inputs.  bob never asked for a reset: his reset
    token is empty and its expiry zero.  An empty token passes the check and
    reaches the expiry branch, which stores the fresh token [012345], but
    the notifier is handed bob's email-verify token, the empty string.
    carol's reset token was consumed: it is empty, and its expiry, which the
    consume left in place, is still ahead; an empty token passes the check,
    skips the expiry branch and changes her password. *)
Theorem reset_empty_token_paths :
  let rb := mkRequest (query_of "")
              (Ok (Password.mkResetPasswordRequest "b@x.com" "" "pw2")) in
  let rc := mkRequest (query_of "")
              (Ok (Password.mkResetPasswordRequest "c@x.com" "" "pw2")) in
  let w := world_of {["b@x.com" := bob; "c@x.com" := carol]} 7000 in
  let outb := Password.password_reset pcfg rb w in
  let outc := Password.password_reset pcfg rc w in
  let bob' :=
    set_PasswordResetTokenExpiresAt (7000 + 3600)
      (set_PasswordResetToken "012345" bob) in
  (PasswordResetToken bob = "" /\
   fst outb = JSON ResponseFail StatusBadRequest
                "token is expired, a new one has been sent to your mail" /\
   new_calls w (snd outb) =
     [CallFindFirst "b@x.com"; CallUpdateOne "b@x.com" bob';
      CallNotify "b@x.com" ""]) /\
  (PasswordResetToken carol = "" /\
   fst outc = JSON ResponseSuccess StatusOK
                "password changed, redirect to login" /\
   (Password <$> store (snd outc) !! "c@x.com")
     = Some (Password.hash (Password.hasher pcfg) "pw2" "0123456789012345")).
Proof.
  vm_compute. repeat split.
Qed.

(** ** Tokens and their expiries *)

Section TokenLifecycle.
Context {S : Type} `{Model S}.
Variable cfg : Password.PasswordProviderConfig.

Ltac written_first :=
  unfold written; left; eexists; read_calls; simpl; eauto.

Lemma login_verify_issues (r : Request Password.loginRequest) (w : World S)
  (body : Password.loginRequest) (user : User) :
  Body r = Ok body ->
  FindFirst (Password.login_Email body) (store w) = Ok user ->
  EmailVerified user = false \/ Get (Query r) "action" = Password.verify ->
  written w (snd (Password.login cfg r w))
    (set_EmailVerifyTokenExpiresAt (clock w + Hour * 2)
       (set_EmailVerifyToken (fresh 4 w) user)).
Proof.
  intros Hb Hf Hv. unfold Password.login. rewrite Hb. unfold_go. simpl.
  rewrite Hf. simpl.
  assert (E : String.eqb
                (if negb (EmailVerified user) then Password.verify
                 else Get (Query r) "action") Password.verify = true).
  { destruct Hv as [Hv|Hv]; [rewrite Hv | rewrite Hv; destruct (negb _)];
      reflexivity. }
  rewrite E.
  destruct (UpdateOne _ _ _) as [[e|] s'] eqn:Hu; simpl.
  - written_first.
  - destruct (Password.notify _ _ _); simpl; written_first.
Qed.

Lemma register_issues (r : Request Password.registerRequest) (w : World S)
  (body : Password.registerRequest) :
  Body r = Ok body ->
  exists u,
    written w (snd (Password.register cfg r w)) u /\
    Email u = Password.register_Email body /\
    EmailVerified u = false /\
    String.length (EmailVerifyToken u) = 4%nat /\
    EmailVerifyTokenExpiresAt u = clock w + Hour * 2.
Proof.
  intros Hb. unfold Password.register. rewrite Hb. unfold_go. simpl.
  destruct (Save _ _) as [[e|] s'] eqn:Hs; simpl.
  - eexists. split; [unfold written; right; read_calls; simpl; eauto|].
    simpl. auto.
  - destruct (Password.notify _ _ _); simpl.
    all: eexists; split; [unfold written; right; read_calls; simpl; eauto|].
    all: simpl; auto.
Qed.

Lemma reset_request_issues (r : Request Password.resetPasswordRequest)
  (w : World S) (body : Password.resetPasswordRequest) (user : User) :
  Body r = Ok body ->
  FindFirst (Password.reset_Email body) (store w) = Ok user ->
  Get (Query r) "action" = Password.reset ->
  written w (snd (Password.password_reset cfg r w))
    (set_PasswordResetTokenExpiresAt (clock w + Hour * 1)
       (set_PasswordResetToken (fresh 6 w) user)).
Proof.
  intros Hb Hf Ha. unfold Password.password_reset. rewrite Hb. unfold_go.
  simpl. rewrite Hf. simpl. rewrite Ha. simpl.
  destruct (UpdateOne _ _ _) as [[e|] s'] eqn:Hu; simpl.
  - written_first.
  - destruct (Password.notify _ _ _); simpl; written_first.
Qed.

Lemma resend_issues (r : Request Password.verifyEmailRequest)
  (w : World S) (body : Password.verifyEmailRequest) (user : User) :
  Body r = Ok body ->
  FindFirst (Password.verify_Email body) (store w) = Ok user ->
  Get (Query r) "action" = Password.resend ->
  written w (snd (Password.email_verify cfg r w))
    (set_EmailVerifyTokenExpiresAt (clock w + Hour * 2)
       (set_EmailVerifyToken (fresh 4 w) user)).
Proof.
  intros Hb Hf Ha. unfold Password.email_verify. rewrite Hb. unfold_go.
  simpl. rewrite Hf. simpl. rewrite Ha. simpl.
  destruct (UpdateOne _ _ _) as [[e|] s'] eqn:Hu; simpl.
  - written_first.
  - destruct (Password.notify _ _ _); simpl; written_first.
Qed.

(** The expiry branch of [/password-reset]: what goes to the store, what
    goes to the notifier, and what the caller is told. *)
Lemma reset_regenerates (r : Request Password.resetPasswordRequest)
  (w : World S) (body : Password.resetPasswordRequest) (user : User) :
  Body r = Ok body ->
  FindFirst (Password.reset_Email body) (store w) = Ok user ->
  Get (Query r) "action" <> Password.reset ->
  Password.reset_Token body = PasswordResetToken user ->
  PasswordResetTokenExpiresAt user < clock w ->
  let out := Password.password_reset cfg r w in
  let user' :=
    set_PasswordResetTokenExpiresAt (clock w + Hour * 1)
      (set_PasswordResetToken (fresh 6 w) user) in
  exists rest,
    new_calls w (snd out) =
      CallFindFirst (Password.reset_Email body)
      :: CallUpdateOne (Email user) user' :: rest /\
    (rest = [] \/ rest = [CallNotify (Email user) (EmailVerifyToken user)]) /\
    Status (fst out) = ResponseFail /\
    (forall s',
       UpdateOne (Email user) user' (store w) = (None, s') ->
       Password.notify cfg (Email user) (EmailVerifyToken user) = None ->
       rest = [CallNotify (Email user) (EmailVerifyToken user)] /\
       fst out = JSON ResponseFail StatusBadRequest
                   "token is expired, a new one has been sent to your mail").
Proof.
  intros Hb Hf Ha Ht He out user'. subst out user'.
  unfold Password.password_reset. rewrite Hb. unfold_go. simpl.
  rewrite Hf. simpl. rewrite (eqb_false_of_neq _ _ Ha).
  rewrite Ht, String.eqb_refl. simpl. rewrite (gtb_true _ _ He).
  destruct (UpdateOne _ _ _) as [[e|] s'] eqn:Hu; simpl.
  - eexists. split; [read_calls; reflexivity|].
    split; [now left|]. split; [reflexivity|]. intros s'' E. discriminate E.
  - destruct (Password.notify _ _ _) eqn:Hn; simpl.
    all: eexists; split; [read_calls; reflexivity|].
    all: split; [now right|]; split; [reflexivity|].
    all: intros s'' _ E; first [discriminate E | split; reflexivity].
Qed.

(** The expiry branch of [/email-verify]. *)
Lemma verify_regenerates (r : Request Password.verifyEmailRequest)
  (w : World S) (body : Password.verifyEmailRequest) (user : User) :
  Body r = Ok body ->
  FindFirst (Password.verify_Email body) (store w) = Ok user ->
  Get (Query r) "action" <> Password.resend ->
  Password.verify_Token body = EmailVerifyToken user ->
  EmailVerifyTokenExpiresAt user < clock w ->
  let out := Password.email_verify cfg r w in
  let user' :=
    set_EmailVerifyTokenExpiresAt (clock w + Hour * 2)
      (set_EmailVerifyToken (fresh 4 w) user) in
  exists rest,
    new_calls w (snd out) =
      CallFindFirst (Password.verify_Email body)
      :: CallUpdateOne (Email user) user' :: rest /\
    (rest = [] \/ rest = [CallNotify (Email user) (fresh 4 w)]) /\
    Status (fst out) = ResponseFail /\
    (forall s',
       UpdateOne (Email user) user' (store w) = (None, s') ->
       Password.notify cfg (Email user) (fresh 4 w) = None ->
       rest = [CallNotify (Email user) (fresh 4 w)] /\
       fst out = JSON ResponseFail StatusBadRequest
                   "token is expired, a new one has been sent to your mail").
Proof.
  intros Hb Hf Ha Ht He out user'. subst out user'.
  unfold Password.email_verify. rewrite Hb. unfold_go. simpl.
  rewrite Hf. simpl. rewrite (eqb_false_of_neq _ _ Ha).
  rewrite Ht, String.eqb_refl. simpl. rewrite (gtb_true _ _ He).
  destruct (UpdateOne _ _ _) as [[e|] s'] eqn:Hu; simpl.
  - eexists. split; [read_calls; reflexivity|].
    split; [now left|]. split; [reflexivity|]. intros s'' E. discriminate E.
  - destruct (Password.notify _ _ _) eqn:Hn; simpl.
    all: eexists; split; [read_calls; reflexivity|].
    all: split; [now right|]; split; [reflexivity|].
    all: intros s'' _ E; first [discriminate E | split; reflexivity].
Qed.

(** The success branch of [/email-verify]. *)
Lemma verify_consume_clears (r : Request Password.verifyEmailRequest)
  (w : World S) (body : Password.verifyEmailRequest) (user : User) :
  Body r = Ok body ->
  FindFirst (Password.verify_Email body) (store w) = Ok user ->
  Get (Query r) "action" <> Password.resend ->
  Password.verify_Token body = EmailVerifyToken user ->
  clock w <= EmailVerifyTokenExpiresAt user ->
  let out := Password.email_verify cfg r w in
  let user' :=
    set_EmailVerifiedAt (clock w)
      (set_EmailVerifyTokenExpiresAt zeroTime
         (set_EmailVerified true (set_EmailVerifyToken "" user))) in
  new_calls w (snd out) =
    [CallFindFirst (Password.verify_Email body);
     CallUpdateOne (Email user) user'] /\
  (forall s',
     UpdateOne (Email user) user' (store w) = (None, s') ->
     fst out = JSON ResponseSuccess StatusOK
                 "email successfully verified, redirect to login").
Proof.
  intros Hb Hf Ha Ht He out user'. subst out user'.
  unfold Password.email_verify. rewrite Hb. unfold_go. simpl.
  rewrite Hf. simpl. rewrite (eqb_false_of_neq _ _ Ha).
  rewrite Ht, String.eqb_refl. simpl. rewrite (gtb_false _ _ He).
  destruct (UpdateOne _ _ _) as [[e|] s'] eqn:Hu; simpl.
  - split; [read_calls; reflexivity|]. intros s'' E. discriminate E.
  - split; [read_calls; reflexivity|]. reflexivity.
Qed.

(** The success branch of [/password-reset]. *)
Lemma reset_consume_clears (r : Request Password.resetPasswordRequest)
  (w : World S) (body : Password.resetPasswordRequest) (user : User) :
  Body r = Ok body ->
  FindFirst (Password.reset_Email body) (store w) = Ok user ->
  Get (Query r) "action" <> Password.reset ->
  Password.reset_Token body = PasswordResetToken user ->
  clock w <= PasswordResetTokenExpiresAt user ->
  let out := Password.password_reset cfg r w in
  let salt := fresh 16 w in
  let user' :=
    set_PasswordUpdatedOn (clock w)
      (set_Password
         (Password.hash (Password.hasher cfg)
            (Password.reset_NewPassword body) salt)
         (set_PasswordSalt salt (set_PasswordResetToken "" user))) in
  new_calls w (snd out) =
    [CallFindFirst (Password.reset_Email body);
     CallHash (Password.reset_NewPassword body) salt;
     CallUpdateOne (Email user) user'] /\
  (forall s',
     UpdateOne (Email user) user' (store w) = (None, s') ->
     fst out = JSON ResponseSuccess StatusOK
                 "password changed, redirect to login").
Proof.
  intros Hb Hf Ha Ht He out salt user'. subst out salt user'.
  unfold Password.password_reset. rewrite Hb. unfold_go. simpl.
  rewrite Hf. simpl. rewrite (eqb_false_of_neq _ _ Ha).
  rewrite Ht, String.eqb_refl. simpl. rewrite (gtb_false _ _ He).
  destruct (UpdateOne _ _ _) as [[e|] s'] eqn:Hu; simpl.
  - split; [read_calls; reflexivity|]. intros s'' E. discriminate E.
  - split; [read_calls; reflexivity|]. reflexivity.
Qed.

End TokenLifecycle.

(** ** The notifier in the password strategy *)

Section PasswordNotifier.
Context {S : Type} `{Model S}.
Variable cfg : Password.PasswordProviderConfig.

Ltac notify_cases :=
  simpl; intros;
  repeat match goal with
  | H : _ \/ _ |- _ => destruct H
  | H : False |- _ => destruct H
  | H : CallNotify _ _ = CallNotify _ _ |- _ => inversion H; subst; clear H
  | H : _ = CallNotify _ _ |- _ => discriminate H
  end;
  try congruence.

Lemma login_surfaces_notifier :
  notifier_failure_surfaces (Password.notify cfg) (Password.login cfg).
Proof.
  intros r w email token err. unfold Password.login. unfold_go.
  repeat (case_match; simplify_eq/=).
  all: read_calls; notify_cases.
Qed.

Lemma register_surfaces_notifier :
  notifier_failure_surfaces (Password.notify cfg) (Password.register cfg).
Proof.
  intros r w email token err. unfold Password.register. unfold_go.
  repeat (case_match; simplify_eq/=).
  all: read_calls; notify_cases.
Qed.

Lemma password_reset_surfaces_notifier :
  notifier_failure_surfaces (Password.notify cfg) (Password.password_reset cfg).
Proof.
  intros r w email token err. unfold Password.password_reset. unfold_go.
  repeat (case_match; simplify_eq/=).
  all: read_calls; notify_cases.
Qed.

Lemma email_verify_surfaces_notifier :
  notifier_failure_surfaces (Password.notify cfg) (Password.email_verify cfg).
Proof.
  intros r w email token err. unfold Password.email_verify. unfold_go.
  repeat (case_match; simplify_eq/=).
  all: read_calls; notify_cases.
Qed.

End PasswordNotifier.

(** * The passwordless strategy *)

Section MagicLink.
Context {S : Type} `{Model S}.
Variable cfg : Passwordless.PasswordlessProviderConfig.

Lemma claims_of_lookup (email : string) (now : Z) :
  Passwordless.claims_of email now !! "expiry"
    = Some (AnyInt64 (now + Minute * 10)) /\
  Passwordless.claims_of email now !! "email" = Some (AnyString email).
Proof.
  unfold Passwordless.claims_of. split.
  - rewrite lookup_insert_ne by discriminate. apply lookup_insert_eq.
  - apply lookup_insert_eq.
Qed.

Ltac encrypt_cases :=
  simpl; intros;
  repeat match goal with
  | H : _ \/ _ |- _ => destruct H
  | H : False |- _ => destruct H
  | H : CallEncrypt _ = CallEncrypt _ |- _ => inversion H; subst; clear H
  | H : _ = CallEncrypt _ |- _ => discriminate H
  end.

(** Whatever [authorize] encrypts is the pair of the submitted email and
    the expiry now + 10min. *)
Lemma authorize_encrypts_claims (r : Request Passwordless.authenticateRequest)
  (w : World S) (c : gmap string any) :
  In (CallEncrypt c) (new_calls w (snd (Passwordless.authorize cfg r w))) ->
  exists body,
    Body r = Ok body /\
    c = Passwordless.claims_of (Passwordless.auth_Email body) (clock w).
Proof.
  unfold Passwordless.authorize. unfold_go.
  destruct (Body r) as [body|e]; simpl.
  2:{ read_calls. intros []. }
  repeat (case_match; simplify_eq/=).
  all: read_calls; encrypt_cases; eauto.
Qed.

(** The notifier's answer does not reach the caller: two configurations
    that differ in the notifier only behave alike. *)
Lemma authorize_ignores_notifier
  (n1 n2 : string -> string -> option error)
  (enc : gmap string any -> string * option error)
  (dec : string -> gmap string any * option error)
  (r : Request Passwordless.authenticateRequest) (w : World S) :
  Passwordless.authorize (Passwordless.mkConfig n1 enc dec) r w
  = Passwordless.authorize (Passwordless.mkConfig n2 enc dec) r w.
Proof.
  unfold Passwordless.authorize. unfold_go. simpl.
  repeat (case_match; simplify_eq/=); reflexivity.
Qed.

(** The default action compares the store's error with an error it has just
    allocated, so it never saves: every error that exists when the handler
    runs sits below the heap's next free address. *)
Lemma default_never_saves (r : Request Passwordless.authenticateRequest)
  (w : World S) (body : Passwordless.authenticateRequest) :
  Body r = Ok body ->
  Get (Query r) "action" <> Passwordless.authenticate ->
  Get (Query r) "action" <> Passwordless.resend ->
  (forall e, First (Passwordless.auth_Email body) (store w) = Err e ->
             Forall (fun a => (a < heap w)%nat) (err_addrs e)) ->
  let out := Passwordless.authorize cfg r w in
  store (snd out) = store w /\
  fst out = JSON ResponseSuccess StatusOK
              "please check your email for authentication link" /\
  forall u, ~ In (CallSave u) (new_calls w (snd out)).
Proof.
  intros Hb Ha Hr Hheap out. subst out.
  unfold Passwordless.authorize. rewrite Hb. unfold_go. simpl.
  rewrite (eqb_false_of_neq _ _ Ha), (eqb_false_of_neq _ _ Hr).
  destruct (First _ _) as [u|e] eqn:Hf; simpl.
  - repeat split. read_calls. intros u' [C|[C|[C|[]]]]; discriminate C.
  - pose proof (errors_Is_fresh e "doc not found" (heap w) (Hheap e eq_refl))
      as Hfresh.
    simpl in Hfresh. rewrite Hfresh. simpl.
    repeat split. read_calls. intros u' [C|[C|[C|[]]]]; discriminate C.
Qed.

(** C9: in the authenticate action, a decrypted [expiry] that is not an
    [int64] asserts to the timestamp 0; with the clock after the epoch the
    request is refused before the store is touched, whatever number the
    claim holds, and when the email check passes the refusal is the one for
    an expired token. *)
Theorem authenticate_non_int64_expiry_rejected
  (r : Request Passwordless.authenticateRequest) (w : World S)
  (body : Passwordless.authenticateRequest) :
  Body r = Ok body ->
  Get (Query r) "action" = Passwordless.authenticate ->
  Get (Query r) "token" <> "" ->
  let claims := fst (Passwordless.Decrypt cfg (Get (Query r) "token")) in
  (forall z, map_index claims "expiry" <> AnyInt64 z) ->
  0 < clock w ->
  let out := Passwordless.authorize cfg r w in
  assert_int64 (map_index claims "expiry") = (0, false) /\
  Status (fst out) = ResponseError /\
  StatusCode (fst out) = StatusBadRequest /\
  store (snd out) = store w /\
  new_calls w (snd out) = [CallDecrypt (Get (Query r) "token")] /\
  (any_eq_string (map_index claims "email") (Passwordless.auth_Email body)
     = true ->
   fst out = JSON ResponseError StatusBadRequest
               "validation token has expire, please try again").
Proof.
  intros Hb Ha Ht claims Hexp Hclock out. subst out.
  assert (E : assert_int64 (map_index claims "expiry") = (0, false)).
  { destruct (map_index claims "expiry") eqn:Hm; try reflexivity.
    now destruct (Hexp z). }
  split; [exact E|].
  unfold Passwordless.authorize. rewrite Hb. unfold_go. simpl.
  rewrite Ha. simpl. rewrite (eqb_false_of_neq _ _ Ht).
  fold claims. rewrite E. cbn [fst].
  destruct (any_eq_string _ _); cbn -[Z.gtb].
  all: rewrite ?(gtb_true (clock w) 0 Hclock); simpl.
  all: repeat split; try (read_calls; reflexivity).
  intros C. discriminate C.
Qed.

End MagicLink.

Lemma authenticate_non_int64_expiry_rejected_witness :
  let r := mkRequest
             (<["action" := "authenticate"]> {["token" := "tok-float64"]})
             (Ok (Passwordless.mkAuthenticateRequest "a@x.com")) in
  let w := world_of {["a@x.com" := alice]} 7000 in
  let claims := fst (toyDecrypt "tok-float64") in
  let out := Passwordless.authorize lcfg r w in
  assert_int64 (map_index claims "expiry") = (0, false) /\
  Status (fst out) = ResponseError /\
  StatusCode (fst out) = StatusBadRequest /\
  store (snd out) = store w /\
  new_calls w (snd out) = [CallDecrypt "tok-float64"] /\
  (any_eq_string (map_index claims "email") "a@x.com" = true ->
   fst out = JSON ResponseError StatusBadRequest
               "validation token has expire, please try again").
Proof.
  intros r w.
  apply (authenticate_non_int64_expiry_rejected lcfg r w
           (Passwordless.mkAuthenticateRequest "a@x.com")).
  - reflexivity.
  - reflexivity.
  - vm_compute. discriminate.
  - intros z. vm_compute. discriminate.
  - reflexivity.
Defined.

(** The same request with a token whose expiry is an [int64] ahead of the
    clock authenticates. *)
Lemma authenticate_int64_expiry_accepted :
  let r := mkRequest
             (<["action" := "authenticate"]> {["token" := "tok-int64"]})
             (Ok (Passwordless.mkAuthenticateRequest "a@x.com")) in
  let w := world_of {["a@x.com" := alice]} 7000 in
  let out := Passwordless.authorize lcfg r w in
  fst out = JSON ResponseSuccess StatusOK "" /\
  (LastLogin <$> store (snd out) !! "a@x.com") = Some 7000.
Proof. vm_compute. split; reflexivity. Qed.

(** C2, at a failing input: the store is empty and the default action is
    asked for [new@x.com].  [First] answers with the store's not-found
    error; the handler compares it with an error it allocates on the spot,
    the comparison fails, and [Save] is not called: the response is the
    success one and the store is still empty. *)
Theorem default_action_does_not_provision :
  let r := mkRequest (query_of "")
             (Ok (Passwordless.mkAuthenticateRequest "new@x.com")) in
  let w := world_of ∅ 7000 in
  let out := Passwordless.authorize lcfg r w in
  First "new@x.com" (store w) = Err ErrNotFound /\
  Error ErrNotFound = "doc not found" /\
  fst out = JSON ResponseSuccess StatusOK
              "please check your email for authentication link" /\
  store (snd out) = ∅ /\
  new_calls w (snd out) =
    [CallFirst "new@x.com";
     CallEncrypt (Passwordless.claims_of "new@x.com" 7000);
     CallNotify "new@x.com" "tok-int64"].
Proof. vm_compute. repeat split. Qed.

(** C6, as stated, fails: the notifier is down, the default action of the
    magic link calls it and still answers with success. *)
Lemma magic_link_notifier_failure_ignored :
  let r := mkRequest (query_of "")
             (Ok (Passwordless.mkAuthenticateRequest "a@x.com")) in
  let w := world_of {["a@x.com" := alice]} 7000 in
  let out := Passwordless.authorize lcfg_down r w in
  In (CallNotify "a@x.com" "tok-int64") (new_calls w (snd out)) /\
  Passwordless.notify lcfg_down "a@x.com" "tok-int64" = Some ErrDelivery /\
  fst out = JSON ResponseSuccess StatusOK
              "please check your email for authentication link".
Proof.
  vm_compute. split; [|split; reflexivity]. right. right. left. reflexivity.
Qed.

(** C6, as the code has it: the four handlers of the password strategy
    answer a failed notification with the failure that carries the
    notifier's error; the handler of the passwordless strategy assigns the
    notifier's answer to [_], so its response and the world it leaves do not
    depend on the notifier. *)
Theorem notifier_failure_by_strategy {S : Type} `{Model S}
  (cfg : Password.PasswordProviderConfig) :
  notifier_failure_surfaces (Password.notify cfg) (Password.login cfg) /\
  notifier_failure_surfaces (Password.notify cfg) (Password.register cfg) /\
  notifier_failure_surfaces (Password.notify cfg)
    (Password.password_reset cfg) /\
  notifier_failure_surfaces (Password.notify cfg) (Password.email_verify cfg) /\
  forall n1 n2 enc dec (r : Request Passwordless.authenticateRequest)
         (w : World S),
    Passwordless.authorize (Passwordless.mkConfig n1 enc dec) r w
    = Passwordless.authorize (Passwordless.mkConfig n2 enc dec) r w.
Proof.
  split; [apply login_surfaces_notifier|].
  split; [apply register_surfaces_notifier|].
  split; [apply password_reset_surfaces_notifier|].
  split; [apply email_verify_surfaces_notifier|].
  intros. apply authorize_ignores_notifier.
Qed.

Lemma notifier_failure_by_strategy_witness :
  let r := mkRequest (query_of "resend")
             (Ok (Password.mkVerifyEmailRequest "d@x.com" "")) in
  let w := world_of {["d@x.com" := dave]} 7000 in
  fst (Password.email_verify pcfg_down r w) = Password.fail ErrDelivery.
Proof.
  intros r w.
  destruct (notifier_failure_by_strategy pcfg_down) as (_ & _ & _ & Hv & _).
  apply (Hv r w "d@x.com" "0123").
  - vm_compute. right. right. left. reflexivity.
  - reflexivity.
Defined.

(** * The registry *)

Section Registry.
Context {R : Type}.



End Registry.



(** For comparison, outside what the sources declare: were a hook to return
    an error, [Build] would drop it and still return nil. *)
Lemma Build_swallows_failed_installation :
  let a := Authentication.New []
             [Authentication.RegisterStrategy passwordProvider;
              Authentication.RegisterStrategy brokenProvider] in
  Authentication.providers a = [passwordProvider; brokenProvider] /\
  snd (Authentication.Init brokenProvider (Password.Init [])
         (Authentication.session a)) = Some ErrInstall /\
  snd (Authentication.Build a) = None.
Proof. vm_compute. repeat split. Qed.

Lemma Build_both_strategies :
  let a := Authentication.New []
             [Authentication.RegisterStrategy passwordProvider;
              Authentication.RegisterSession (Authentication.OtherSession "jwt");
              Authentication.RegisterStrategy passwordlessProvider] in
  Authentication.Build a =
    (map (mkRoute "POST")
       ["/login"; "/register"; "/password-reset"; "/email-verify";
        "/magic-link/authorize"],
     [Authentication.mkInstall "password" []
        (Authentication.OtherSession "jwt");
      Authentication.mkInstall "magic-link" (Password.Init [])
        (Authentication.OtherSession "jwt")],
     None).
Proof. vm_compute. reflexivity. Qed.

(** * The invariant of the data model on the in-memory store *)

Section VerifiedWithoutToken.
Variable pc : Password.PasswordProviderConfig.
Variable lc : Passwordless.PasswordlessProviderConfig.

Lemma store_ok_lookup (s : gmap string User) (e : string) (u : User) :
  store_ok s -> s !! e = Some u -> verified_without_token u.
Proof. intros Hs Hl. exact (Hs e u Hl). Qed.

Lemma store_ok_update (s : gmap string User) (k e : string) (u : User) :
  store_ok s -> verified_without_token u ->
  store_ok (<[k := u]> (delete e s)).
Proof.
  intros Hs Hu. apply map_Forall_insert_2; [exact Hu|].
  now apply map_Forall_delete.
Qed.

Lemma store_ok_save (s : gmap string User) (k : string) (u : User) :
  store_ok s -> verified_without_token u -> store_ok (<[k := u]> s).
Proof. intros Hs Hu. now apply map_Forall_insert_2. Qed.

(** Runs a handler on the in-memory store, one case per path. *)
Ltac mem_cases :=
  unfold_go; simpl; unfold mem_find, mem_update, mem_save in *;
  repeat (case_match; simplify_eq/=).

Ltac absurd_eqb :=
  match goal with
  | Hq : String.eqb _ _ = true |- _ =>
    apply String.eqb_eq in Hq; (contradiction || congruence)
  end.

Ltac bool_facts :=
  repeat match goal with
  | Hq : String.eqb _ _ = true |- _ => apply String.eqb_eq in Hq
  | Hq : String.eqb _ _ = false |- _ => apply String.eqb_neq in Hq
  | Hq : negb _ = true |- _ => apply negb_true_iff in Hq
  | Hq : negb _ = false |- _ => apply negb_false_iff in Hq
  | Hq : _ || _ = true |- _ => apply orb_true_iff in Hq; destruct Hq
  | Hq : _ && _ = true |- _ => apply andb_true_iff in Hq; destruct Hq
  | Hq : true = true -> _ |- _ => specialize (Hq eq_refl)
  | Hq : false = true |- _ => discriminate Hq
  end.

Ltac use_lookups Hok :=
  repeat match goal with
  | Hl : _ !! _ = Some ?u |- _ =>
    apply (store_ok_lookup _ _ _ Hok) in Hl
  end.

Ltac close_inv Hok :=
  first
    [ exact Hok
    | apply store_ok_update; [exact Hok|]
    | apply store_ok_save; [exact Hok|] ];
  use_lookups Hok; unfold verified_without_token in *; simpl in *;
  try match goal with
  | |- context [EmailVerified ?u] => destruct (EmailVerified u) eqn:?
  end; simpl in *; try discriminate; auto.

Ltac finish_inv :=
  intros; bool_facts; subst;
  repeat match goal with
  | Hq : Z.gtb _ _ = _ |- _ => rewrite Hq in *
  end;
  bool_facts; first [congruence | auto].

Lemma step_keeps (st : Step) (w : World (gmap string User)) :
  store_ok (store w) -> guarded st w = true ->
  store_ok (store (step pc lc st w)).
Proof.
  intros Hok Hg. destruct st as [r|r|r|r|r|n]; simpl in *.
  - unfold Password.login, is_verified in *. mem_cases.
    all: close_inv Hok.
    all: exfalso; bool_facts; congruence.
  - unfold Password.register. mem_cases. all: close_inv Hok.
  - unfold Password.password_reset. mem_cases. all: close_inv Hok.
  - unfold Password.email_verify, is_verified, verify_expiry_passed in *.
    mem_cases.
    all: close_inv Hok.
    all: finish_inv.
  - unfold Passwordless.authorize, is_verified, holds_no_verify_token in *.
    mem_cases.
    all: close_inv Hok.
    all: finish_inv.
  - exact Hok.
Qed.

(** C3, as the code has it: on the in-memory store, if every verified
    identity holds no email-verify token, that stays so through every
    sequence of requests to the five handlers except the ones that hand a
    verify token to a verified identity or verify an identity that holds
    one.  Excluded are, for a verified identity, a login with
    [action=verify], an email-verify with [action=resend] and an
    email-verify that submits the empty token after the stored expiry has
    passed; and, for an identity that is not verified and holds a verify
    token, the authenticate action of the magic link.  The success path of
    email-verify sets [EmailVerified] and empties the token. *)
Theorem guarded_steps_keep_verified_without_token
  (sts : list Step) (w : World (gmap string User)) :
  store_ok (store w) ->
  all_guarded pc lc sts w = true ->
  store_ok (store (run pc lc sts w)).
Proof.
  revert w. induction sts as [|st sts IH]; intros w Hok Hg; simpl in *.
  - exact Hok.
  - apply andb_true_iff in Hg as [Hst Hrest].
    apply IH; [|exact Hrest]. now apply step_keeps.
Qed.

End VerifiedWithoutToken.

Lemma guarded_steps_keep_verified_without_token_witness :
  let sts :=
    [Register (mkRequest (query_of "")
                 (Ok (Password.mkRegisterRequest "a@x.com" "pw1")));
     Tick 60;
     Login (mkRequest (query_of "verify")
              (Ok (Password.mkLoginRequest "a@x.com" "pw1")));
     EmailVerify (mkRequest (query_of "")
                    (Ok (Password.mkVerifyEmailRequest "a@x.com" "6789")));
     Tick 60;
     Authorize (mkRequest
                  (<["action" := "authenticate"]> {["token" := "tok-int64"]})
                  (Ok (Passwordless.mkAuthenticateRequest "a@x.com")));
     EmailVerify (mkRequest (query_of "")
                    (Ok (Password.mkVerifyEmailRequest "a@x.com" "0000")));
     Login (mkRequest (query_of "")
              (Ok (Password.mkLoginRequest "a@x.com" "pw1")))] in
  let w := run pcfg lcfg sts (world_of ∅ 7000) in
  store_ok (store w) /\
  (EmailVerified <$> store w !! "a@x.com") = Some true /\
  (LastLogin <$> store w !! "a@x.com") = Some 7120.
Proof.
  intros sts w. split.
  - apply (guarded_steps_keep_verified_without_token pcfg lcfg sts
             (world_of ∅ 7000)).
    + apply map_Forall_empty.
    + vm_compute. reflexivity.
  - vm_compute. split; reflexivity.
Defined.

(** C3, as stated, fails: an identity registers, verifies its email with
    the code it was sent, and then asks [/email-verify] to resend; it is
    left verified and holding the fresh token [6789]. *)
Lemma resend_gives_verified_identity_a_token :
  let sts :=
    [Register (mkRequest (query_of "")
                 (Ok (Password.mkRegisterRequest "a@x.com" "pw1")));
     Tick 60;
     EmailVerify (mkRequest (query_of "")
                    (Ok (Password.mkVerifyEmailRequest "a@x.com" "2345")));
     Tick 60;
     EmailVerify (mkRequest (query_of "resend")
                    (Ok (Password.mkVerifyEmailRequest "a@x.com" "")))] in
  let w := run pcfg lcfg sts (world_of ∅ 7000) in
  (EmailVerified <$> store w !! "a@x.com") = Some true /\
  (EmailVerifyToken <$> store w !! "a@x.com") = Some "6789" /\
  ~ store_ok (store w).
Proof.
  intros sts w.
  assert (L : exists u, store w !! "a@x.com" = Some u /\
                        EmailVerified u = true /\ EmailVerifyToken u = "6789").
  { vm_compute. eexists. repeat split. }
  destruct L as (u & Hl & Hv & Ht).
  split; [now rewrite Hl; simpl; rewrite Hv|].
  split; [now rewrite Hl; simpl; rewrite Ht|].
  intros Hok. specialize (Hok "a@x.com" u Hl Hv).
  rewrite Ht in Hok. discriminate Hok.
Qed.

(** The other requests that the guard leaves out, on bob, who is verified
    and holds no token: a login with [action=verify], and an email-verify
    with the empty token after the zero expiry, each leave him verified and
    holding a fresh token. *)
Lemma left_out_requests_hand_out_tokens :
  let w := world_of {["b@x.com" := bob]} 7000 in
  let r1 := mkRequest (query_of "verify")
              (Ok (Password.mkLoginRequest "b@x.com" "pw1")) in
  let r2 := mkRequest (query_of "")
              (Ok (Password.mkVerifyEmailRequest "b@x.com" "")) in
  store_ok (store w) /\
  guarded (Login r1) w = false /\
  guarded (EmailVerify r2) w = false /\
  (EmailVerifyToken <$> store (step pcfg lcfg (Login r1) w) !! "b@x.com")
    = Some "0123" /\
  (EmailVerifyToken <$> store (step pcfg lcfg (EmailVerify r2) w) !! "b@x.com")
    = Some "0123".
Proof.
  intros w r1 r2. split.
  - intros e u. unfold w. simpl. rewrite lookup_singleton.
    case_decide; [|discriminate]. intros E. inversion E. now intros _.
  - vm_compute. repeat split.
Qed.

(** * Issuing and consuming tokens *)

Section Pairing.
Context {S : Type} `{Model S}.
Variable pc : Password.PasswordProviderConfig.
Variable lc : Passwordless.PasswordlessProviderConfig.

Lemma written_second (w w' : World S) (c : Call) (e : string) (u : User)
  (rest : list Call) :
  new_calls w w' = c :: CallUpdateOne e u :: rest -> written w w' u.
Proof. intros E. left. exists e. rewrite E. right. now left. Qed.

Lemma verify_pair_fresh (w : World S) (user : User) :
  0 <= clock w ->
  verify_pair_issued (clock w)
    (set_EmailVerifyTokenExpiresAt (clock w + Hour * 2)
       (set_EmailVerifyToken (fresh 4 w) user)).
Proof.
  intros Hc. unfold verify_pair_issued. simpl.
  split; [first [reflexivity | apply fresh_length]|].
  split; [reflexivity|]. unfold Hour, zeroTime. lia.
Qed.

Lemma reset_pair_fresh (w : World S) (user : User) :
  0 <= clock w ->
  reset_pair_issued (clock w)
    (set_PasswordResetTokenExpiresAt (clock w + Hour * 1)
       (set_PasswordResetToken (fresh 6 w) user)).
Proof.
  intros Hc. unfold reset_pair_issued. simpl.
  split; [first [reflexivity | apply fresh_length]|].
  split; [reflexivity|]. unfold Hour, zeroTime. lia.
Qed.

(** C4, as the code has it, with the clock not before the epoch.  Every
    path that issues a verify or a reset token writes it with its expiry,
    now + 2h for the four characters of a verify token and now + 1h for the
    six of a reset token: login's verify branch, register, the reset
    request, the resend, and the two paths that meet an expired token; every
    magic link carries the expiry now + 10min in its claims.  The paths that
    meet an expired token clear nothing: they write the fresh pair.  The
    success path of email-verify writes the empty token and the zero
    expiry; the success path of password-reset writes the empty token. *)
Theorem tokens_are_written_with_their_expiry (w : World S) :
  0 <= clock w ->
  (forall r body user,
     Body r = Ok body ->
     FindFirst (Password.login_Email body) (store w) = Ok user ->
     EmailVerified user = false \/ Get (Query r) "action" = Password.verify ->
     exists u, written w (snd (Password.login pc r w)) u /\
               verify_pair_issued (clock w) u) /\
  (forall r body,
     Body r = Ok body ->
     exists u, written w (snd (Password.register pc r w)) u /\
               verify_pair_issued (clock w) u) /\
  (forall r body user,
     Body r = Ok body ->
     FindFirst (Password.reset_Email body) (store w) = Ok user ->
     Get (Query r) "action" = Password.reset ->
     exists u, written w (snd (Password.password_reset pc r w)) u /\
               reset_pair_issued (clock w) u) /\
  (forall r body user,
     Body r = Ok body ->
     FindFirst (Password.verify_Email body) (store w) = Ok user ->
     Get (Query r) "action" = Password.resend ->
     exists u, written w (snd (Password.email_verify pc r w)) u /\
               verify_pair_issued (clock w) u) /\
  (forall r c,
     In (CallEncrypt c) (new_calls w (snd (Passwordless.authorize lc r w))) ->
     c !! "expiry" = Some (AnyInt64 (clock w + Minute * 10))) /\
  (forall r body user,
     Body r = Ok body ->
     FindFirst (Password.reset_Email body) (store w) = Ok user ->
     Get (Query r) "action" <> Password.reset ->
     Password.reset_Token body = PasswordResetToken user ->
     PasswordResetTokenExpiresAt user < clock w ->
     exists u, written w (snd (Password.password_reset pc r w)) u /\
               reset_pair_issued (clock w) u /\
               PasswordResetToken u <> "") /\
  (forall r body user,
     Body r = Ok body ->
     FindFirst (Password.verify_Email body) (store w) = Ok user ->
     Get (Query r) "action" <> Password.resend ->
     Password.verify_Token body = EmailVerifyToken user ->
     EmailVerifyTokenExpiresAt user < clock w ->
     exists u, written w (snd (Password.email_verify pc r w)) u /\
               verify_pair_issued (clock w) u /\
               EmailVerifyToken u <> "") /\
  (forall r body user,
     Body r = Ok body ->
     FindFirst (Password.verify_Email body) (store w) = Ok user ->
     Get (Query r) "action" <> Password.resend ->
     Password.verify_Token body = EmailVerifyToken user ->
     clock w <= EmailVerifyTokenExpiresAt user ->
     exists u, written w (snd (Password.email_verify pc r w)) u /\
               verify_pair_cleared u /\ EmailVerified u = true) /\
  (forall r body user,
     Body r = Ok body ->
     FindFirst (Password.reset_Email body) (store w) = Ok user ->
     Get (Query r) "action" <> Password.reset ->
     Password.reset_Token body = PasswordResetToken user ->
     clock w <= PasswordResetTokenExpiresAt user ->
     exists u, written w (snd (Password.password_reset pc r w)) u /\
               PasswordResetToken u = "").
Proof.
  intros Hc.
  split.
  { intros r body user Hb Hf Hv. eexists. split.
    - exact (login_verify_issues pc r w body user Hb Hf Hv).
    - now apply verify_pair_fresh. }
  split.
  { intros r body Hb.
    destruct (register_issues pc r w body Hb) as (u & Hw & _ & _ & Hl & He).
    exists u. split; [exact Hw|]. unfold verify_pair_issued.
    split; [exact Hl|]. split; [exact He|].
    rewrite He. unfold Hour, zeroTime. lia. }
  split.
  { intros r body user Hb Hf Ha. eexists. split.
    - exact (reset_request_issues pc r w body user Hb Hf Ha).
    - now apply reset_pair_fresh. }
  split.
  { intros r body user Hb Hf Ha. eexists. split.
    - exact (resend_issues pc r w body user Hb Hf Ha).
    - now apply verify_pair_fresh. }
  split.
  { intros r c Hin.
    destruct (authorize_encrypts_claims lc r w c Hin) as (body & _ & ->).
    apply claims_of_lookup. }
  split.
  { intros r body user Hb Hf Ha Ht He.
    destruct (reset_regenerates pc r w body user Hb Hf Ha Ht He)
      as (rest & Hcalls & _).
    eexists. split; [exact (written_second _ _ _ _ _ _ Hcalls)|].
    split; [now apply reset_pair_fresh|]. simpl. apply fresh_nonempty. }
  split.
  { intros r body user Hb Hf Ha Ht He.
    destruct (verify_regenerates pc r w body user Hb Hf Ha Ht He)
      as (rest & Hcalls & _).
    eexists. split; [exact (written_second _ _ _ _ _ _ Hcalls)|].
    split; [now apply verify_pair_fresh|]. simpl. apply fresh_nonempty. }
  split.
  { intros r body user Hb Hf Ha Ht He.
    destruct (verify_consume_clears pc r w body user Hb Hf Ha Ht He)
      as (Hcalls & _).
    eexists. split; [exact (written_second _ _ _ _ _ _ Hcalls)|].
    repeat split. }
  { intros r body user Hb Hf Ha Ht He.
    destruct (reset_consume_clears pc r w body user Hb Hf Ha Ht He)
      as (Hcalls & _).
    eexists. split.
    - left. eexists. rewrite Hcalls. right. right. now left.
    - reflexivity. }
Qed.

End Pairing.

Lemma tokens_are_written_with_their_expiry_witness :
  let r := mkRequest (query_of "")
             (Ok (Password.mkVerifyEmailRequest "d@x.com" "4321")) in
  let w := world_of {["d@x.com" := dave]} 7000 in
  exists u, written w (snd (Password.email_verify pcfg r w)) u /\
            verify_pair_cleared u /\ EmailVerified u = true.
Proof.
  intros r w.
  assert (Hc : 0 <= clock w) by (vm_compute; discriminate).
  destruct (tokens_are_written_with_their_expiry pcfg lcfg w Hc)
    as (_ & _ & _ & _ & _ & _ & _ & Hv & _).
  apply (Hv r (Password.mkVerifyEmailRequest "d@x.com" "4321") dave).
  - reflexivity.
  - reflexivity.
  - vm_compute. discriminate.
  - reflexivity.
  - vm_compute. discriminate.
Defined.

(** C4, as stated, fails: dave consumes his verify token [4321] after its
    expiry; the path that meets the expired token leaves him with the token
    [0123] and the expiry 9500 + 2h, neither of them cleared. *)
Lemma expired_consume_clears_nothing :
  let r := mkRequest (query_of "")
             (Ok (Password.mkVerifyEmailRequest "d@x.com" "4321")) in
  let w := world_of {["d@x.com" := dave]} 9500 in
  let out := Password.email_verify pcfg r w in
  EmailVerifyToken dave = "4321" /\
  EmailVerifyTokenExpiresAt dave < clock w /\
  fst out = JSON ResponseFail StatusBadRequest
              "token is expired, a new one has been sent to your mail" /\
  (EmailVerifyToken <$> store (snd out) !! "d@x.com") = Some "0123" /\
  (EmailVerifyTokenExpiresAt <$> store (snd out) !! "d@x.com")
    = Some (9500 + 7200) /\
  forall u, store (snd out) !! "d@x.com" = Some u -> ~ verify_pair_cleared u.
Proof.
  intros r w out.
  assert (L : store (snd out) !! "d@x.com" =
              Some (set_EmailVerifyTokenExpiresAt (9500 + 7200)
                      (set_EmailVerifyToken "0123" dave))).
  { vm_compute. reflexivity. }
  split; [reflexivity|]. split; [vm_compute; reflexivity|].
  split; [vm_compute; reflexivity|].
  rewrite L. split; [reflexivity|]. split; [reflexivity|].
  intros u E [Ht _]. inversion E; subst u. discriminate Ht.
Qed.

(** The success path of password-reset, for comparison: alice consumes
    [T1T1T1] before its expiry; the token is emptied and the expiry stays
    where it was. *)
Lemma reset_consume_keeps_expiry :
  let r := mkRequest (query_of "")
             (Ok (Password.mkResetPasswordRequest "a@x.com" "T1T1T1" "pw2")) in
  let w := world_of {["a@x.com" := alice]} 5500 in
  let out := Password.password_reset pcfg r w in
  fst out = JSON ResponseSuccess StatusOK
              "password changed, redirect to login" /\
  (PasswordResetToken <$> store (snd out) !! "a@x.com") = Some "" /\
  (PasswordResetTokenExpiresAt <$> store (snd out) !! "a@x.com") = Some 6000.
Proof. vm_compute. repeat split. Qed.

(** The authenticate action of the magic link, for comparison: dave, who
    still holds the verify token [4321], authenticates with a valid link and
    is left verified and holding that token. *)
Lemma authenticate_keeps_verify_token :
  let r := mkRequest
             (<["action" := "authenticate"]> {["token" := "tok-int64"]})
             (Ok (Passwordless.mkAuthenticateRequest "a@x.com")) in
  let w := world_of {["a@x.com" := set_Email "a@x.com" dave]} 7000 in
  let out := Passwordless.authorize lcfg r w in
  fst out = JSON ResponseSuccess StatusOK "" /\
  (EmailVerified <$> store (snd out) !! "a@x.com") = Some true /\
  (EmailVerifyToken <$> store (snd out) !! "a@x.com") = Some "4321".
Proof. vm_compute. repeat split. Qed.

(** * Tools for the properties that follow *)

Ltac bool_facts :=
  repeat match goal with
  | Hq : String.eqb _ _ = true |- _ => apply String.eqb_eq in Hq
  | Hq : String.eqb _ _ = false |- _ => apply String.eqb_neq in Hq
  | Hq : negb _ = true |- _ => apply negb_true_iff in Hq
  | Hq : negb _ = false |- _ => apply negb_false_iff in Hq
  | Hq : _ || _ = true |- _ => apply orb_true_iff in Hq; destruct Hq
  | Hq : _ && _ = true |- _ => apply andb_true_iff in Hq; destruct Hq
  | Hq : true = true -> _ |- _ => specialize (Hq eq_refl)
  | Hq : false = true |- _ => discriminate Hq
  end.

(** * Further properties of the handlers *)

(** One case per path of a handler, over any store. *)
Ltac paths := unfold_go; repeat (case_match; simplify_eq/=).

Ltac no_such_call :=
  simpl; unfold not; intros;
  repeat match goal with
  | H : _ \/ _ |- _ => destruct H
  | H : False |- _ => destruct H
  | H : @eq Call _ _ |- _ => first [discriminate H | inversion H; subst; clear H]
  end.

Section Refusals.
Context {S : Type} `{Model S}.
Variable pc : Password.PasswordProviderConfig.
Variable lc : Passwordless.PasswordlessProviderConfig.

(** A body that does not decode stops every handler before it reaches a
    collaborator: the world is left as it was and the answer is the error
    500. *)
Theorem malformed_body_touches_nothing (e : error) (w : World S) :
  (forall r, Body r = Err e ->
     Password.login pc r w
     = (JSON ResponseError StatusInternalServerError (Error e), w)) /\
  (forall r, Body r = Err e ->
     Password.register pc r w
     = (JSON ResponseError StatusInternalServerError
          (Error e +:+ "unable to get user details"), w)) /\
  (forall r, Body r = Err e ->
     Password.password_reset pc r w
     = (JSON ResponseError StatusInternalServerError (Error e), w)) /\
  (forall r, Body r = Err e ->
     Password.email_verify pc r w
     = (JSON ResponseError StatusInternalServerError (Error e), w)) /\
  (forall r, Body r = Err e ->
     Passwordless.authorize lc r w
     = (JSON ResponseError StatusInternalServerError "", w)).
Proof.
  repeat split; intros r Hb.
  - unfold Password.login. now rewrite Hb.
  - unfold Password.register. now rewrite Hb.
  - unfold Password.password_reset. now rewrite Hb.
  - unfold Password.email_verify. now rewrite Hb.
  - unfold Passwordless.authorize. now rewrite Hb.
Qed.

(** When the store does not find the identity, login, password-reset and
    email-verify answer with the store's error as a failure 400, whatever
    the action; the lookup is the only call they make and the store is left
    as it was. *)
Theorem unknown_identity_is_refused (e : error) (w : World S) :
  (forall r body,
     Body r = Ok body ->
     FindFirst (Password.login_Email body) (store w) = Err e ->
     let out := Password.login pc r w in
     fst out = Password.fail e /\ store (snd out) = store w /\
     new_calls w (snd out) = [CallFindFirst (Password.login_Email body)]) /\
  (forall r body,
     Body r = Ok body ->
     FindFirst (Password.reset_Email body) (store w) = Err e ->
     let out := Password.password_reset pc r w in
     fst out = Password.fail e /\ store (snd out) = store w /\
     new_calls w (snd out) = [CallFindFirst (Password.reset_Email body)]) /\
  (forall r body,
     Body r = Ok body ->
     FindFirst (Password.verify_Email body) (store w) = Err e ->
     let out := Password.email_verify pc r w in
     fst out = Password.fail e /\ store (snd out) = store w /\
     new_calls w (snd out) = [CallFindFirst (Password.verify_Email body)]).
Proof.
  split; [|split]; intros r body Hb Hf out; subst out.
  - unfold Password.login. rewrite Hb. unfold_go. simpl. rewrite Hf. simpl.
    repeat split. read_calls. reflexivity.
  - unfold Password.password_reset. rewrite Hb. unfold_go. simpl.
    rewrite Hf. simpl. repeat split. read_calls. reflexivity.
  - unfold Password.email_verify. rewrite Hb. unfold_go. simpl.
    rewrite Hf. simpl. repeat split. read_calls. reflexivity.
Qed.

(** A submitted token that differs from the stored one is refused as
    invalid by password-reset and by email-verify: nothing is written,
    hashed or sent, also when the stored token has expired. *)
Theorem wrong_token_changes_nothing (w : World S) :
  (forall r body user,
     Body r = Ok body ->
     FindFirst (Password.reset_Email body) (store w) = Ok user ->
     Get (Query r) "action" <> Password.reset ->
     Password.reset_Token body <> PasswordResetToken user ->
     let out := Password.password_reset pc r w in
     fst out = JSON ResponseFail StatusBadRequest "invalid reset token" /\
     store (snd out) = store w /\ rand (snd out) = rand w /\
     new_calls w (snd out) = [CallFindFirst (Password.reset_Email body)]) /\
  (forall r body user,
     Body r = Ok body ->
     FindFirst (Password.verify_Email body) (store w) = Ok user ->
     Get (Query r) "action" <> Password.resend ->
     Password.verify_Token body <> EmailVerifyToken user ->
     let out := Password.email_verify pc r w in
     fst out = JSON ResponseFail StatusBadRequest "invalid verification token" /\
     store (snd out) = store w /\ rand (snd out) = rand w /\
     new_calls w (snd out) = [CallFindFirst (Password.verify_Email body)]).
Proof.
  split; intros r body user Hb Hf Ha Ht out; subst out.
  - unfold Password.password_reset. rewrite Hb. unfold_go. simpl.
    rewrite Hf. simpl.
    rewrite (eqb_false_of_neq _ _ Ha), (eqb_false_of_neq _ _ Ht). simpl.
    repeat split. read_calls. reflexivity.
  - unfold Password.email_verify. rewrite Hb. unfold_go. simpl.
    rewrite Hf. simpl.
    rewrite (eqb_false_of_neq _ _ Ha), (eqb_false_of_neq _ _ Ht). simpl.
    repeat split. read_calls. reflexivity.
Qed.

End Refusals.

Section LoginAndRegister.
Context {S : Type} `{Model S}.
Variable pc : Password.PasswordProviderConfig.

(** A login that succeeds: for a verified identity whose secret compares
    equal, the identity is written once with [LastLogin] set to now and
    nothing else changed, a token is signed for the identity's id with the
    configured issuer and audience and an expiry 30 days ahead, and the
    response carries the written identity and the token.  No notification
    is sent. *)
Theorem login_success (r : Request Password.loginRequest) (w : World S)
  (body : Password.loginRequest) (user : User) (h : nat) (s' : S)
  (token : string) :
  Body r = Ok body ->
  FindFirst (Password.login_Email body) (store w) = Ok user ->
  EmailVerified user = true ->
  Get (Query r) "action" <> Password.verify ->
  Password.compare (Password.hasher pc) (Password.login_Password body)
    (PasswordSalt user) (Password user) (heap w) = (None, h) ->
  UpdateOne (Email user) (set_LastLogin (clock w) user) (store w)
    = (None, s') ->
  Password.jwt_Sign pc
    (Password.mkJWTClaims (Password.issuer pc) (Password.audience pc)
       (ID user) (clock w + Hour * 24 * 30)) = Ok token ->
  let out := Password.login pc r w in
  fst out = SetData (set_LastLogin (clock w) user) token
              (JSON ResponseSuccess StatusOK "successfull login attempt") /\
  store (snd out) = s' /\
  new_calls w (snd out) =
    [CallFindFirst (Password.login_Email body);
     CallCompare (Password.login_Password body) (PasswordSalt user)
       (Password user);
     CallUpdateOne (Email user) (set_LastLogin (clock w) user);
     CallSign (ID user)].
Proof.
  intros Hb Hf Hv Ha Hc Hu Hs out. subst out.
  unfold Password.login. rewrite Hb. unfold_go. simpl. rewrite Hf. simpl.
  rewrite Hv. simpl. rewrite (eqb_false_of_neq _ _ Ha). simpl. rewrite Hc. simpl.
  rewrite Hu. simpl. rewrite Hs. simpl.
  repeat split. read_calls. reflexivity.
Qed.

(** A login whose secret compares equal but whose write or whose signing
    fails is a failure 400 with that error: no session token leaves the
    handler. *)
Theorem login_no_token_on_failure (r : Request Password.loginRequest)
  (w : World S) :
  let out := Password.login pc r w in
  Status (fst out) <> ResponseSuccess -> Data (fst out) = None.
Proof.
  intros out. subst out. unfold Password.login. paths.
  all: simpl; intros; congruence.
Qed.

(** Register builds the identity from fresh entropy: an id, a salt of 16
    characters, a verify token of 4 characters, the password hashed with
    that salt, not verified, no reset token; it hashes, saves, and notifies
    the submitted email with the stored verify token, in this order. *)
Theorem register_writes_new_identity (r : Request Password.registerRequest)
  (w : World S) (body : Password.registerRequest) :
  Body r = Ok body ->
  let out := Password.register pc r w in
  exists u rest,
    new_calls w (snd out) =
      CallHash (Password.register_Password body) (PasswordSalt u)
      :: CallSave u :: rest /\
    (rest = [] \/ rest = [CallNotify (Email u) (EmailVerifyToken u)]) /\
    Email u = Password.register_Email body /\
    String.length (PasswordSalt u) = 16%nat /\
    Password u = Password.hash (Password.hasher pc)
                   (Password.register_Password body) (PasswordSalt u) /\
    String.length (EmailVerifyToken u) = 4%nat /\
    EmailVerified u = false /\
    PasswordResetToken u = "" /\ PasswordResetTokenExpiresAt u = zeroTime /\
    LastLogin u = 0.
Proof.
  intros Hb out. subst out.
  unfold Password.register. rewrite Hb. unfold_go. simpl.
  destruct (Save _ _) as [[e|] s'] eqn:Hs; simpl.
  - match goal with |- context [CallSave ?u] => exists u end.
    exists []. split; [read_calls; reflexivity|].
    split; [now left|]. simpl. repeat split.
  - destruct (Password.notify _ _ _) eqn:Hn; simpl.
    all: match goal with |- context [CallSave ?u] => exists u end.
    all: eexists; split; [read_calls; reflexivity|].
    all: split; [now right|]; simpl; repeat split.
Qed.

(** When the store refuses the identity that register saves, the answer is
    the store's error as an error 500 and nothing is sent. *)
Theorem register_store_failure (r : Request Password.registerRequest)
  (w : World S) (u : User) (e : error) :
  let out := Password.register pc r w in
  In (CallSave u) (new_calls w (snd out)) ->
  fst (Save u (store w)) = Some e ->
  fst out = JSON ResponseError StatusInternalServerError (Error e) /\
  forall email token, ~ In (CallNotify email token) (new_calls w (snd out)).
Proof.
  intros out. subst out. unfold Password.register. paths.
  all: read_calls; no_such_call.
  all: repeat match goal with
       | Hq : Save ?x ?y = _, Hs : context [Save ?x ?y] |- _ =>
         rewrite Hq in Hs; simpl in Hs
       end; simplify_eq.
  all: split; [reflexivity|]; intros; no_such_call.
Qed.

End LoginAndRegister.

(** [argonHasher]: a secret compares equal to its own hash under the same
    salt, without allocating; a secret whose derived key differs is
    answered with a freshly allocated error. *)
Theorem argonHasher_round_trip
  (IDKey : string -> string -> Z -> Z -> Z -> Z -> string)
  (password salt : string) (heap : nat) :
  let hs := Password.argonHasher IDKey in
  Password.compare hs password salt (Password.hash hs password salt) heap
    = (None, heap) /\
  forall other,
    Password.hash hs other salt <> Password.hash hs password salt ->
    Password.compare hs other salt (Password.hash hs password salt) heap
    = (Some (ErrorString heap "passwords don't Match"), Datatypes.S heap).
Proof.
  intros hs. subst hs. unfold Password.argonHasher, Password.ConstantTimeCompare.
  simpl. split.
  - now rewrite String.eqb_refl.
  - intros other Hd. now rewrite (eqb_false_of_neq _ _ Hd).
Qed.

Section Frames.
Context {S : Type} `{Model S}.
Variable pc : Password.PasswordProviderConfig.
Variable lc : Passwordless.PasswordlessProviderConfig.

Ltac frame Hb Hf :=
  rewrite Hb; unfold_go; simpl; rewrite Hf; simpl;
  repeat (case_match; simplify_eq/=);
  read_calls; no_such_call; simpl; repeat split; auto.

(** Login writes the identity it fetched, under that identity's email, and
    changes at most its verify token with the expiry, or its last login:
    id, email, password, salt, the verified flag and the reset token are
    never touched. *)
Theorem login_keeps_credentials (r : Request Password.loginRequest)
  (w : World S) (body : Password.loginRequest) (user : User)
  (e : string) (u : User) :
  Body r = Ok body ->
  FindFirst (Password.login_Email body) (store w) = Ok user ->
  In (CallUpdateOne e u) (new_calls w (snd (Password.login pc r w))) ->
  e = Email user /\ ID u = ID user /\ Email u = Email user /\
  Password u = Password user /\ PasswordSalt u = PasswordSalt user /\
  PasswordUpdatedOn u = PasswordUpdatedOn user /\
  EmailVerified u = EmailVerified user /\
  EmailVerifiedAt u = EmailVerifiedAt user /\
  PasswordResetToken u = PasswordResetToken user /\
  PasswordResetTokenExpiresAt u = PasswordResetTokenExpiresAt user.
Proof.
  intros Hb Hf. unfold Password.login. frame Hb Hf.
Qed.

(** Password-reset writes the identity it fetched, under that identity's
    email, and never touches id, email, the verified flag, the verify token
    or the last login; the password and its salt change only together with
    the reset token being emptied. *)
Theorem password_reset_keeps_verification
  (r : Request Password.resetPasswordRequest)
  (w : World S) (body : Password.resetPasswordRequest) (user : User)
  (e : string) (u : User) :
  Body r = Ok body ->
  FindFirst (Password.reset_Email body) (store w) = Ok user ->
  In (CallUpdateOne e u)
    (new_calls w (snd (Password.password_reset pc r w))) ->
  e = Email user /\ ID u = ID user /\ Email u = Email user /\
  EmailVerified u = EmailVerified user /\
  EmailVerifiedAt u = EmailVerifiedAt user /\
  EmailVerifyToken u = EmailVerifyToken user /\
  EmailVerifyTokenExpiresAt u = EmailVerifyTokenExpiresAt user /\
  LastLogin u = LastLogin user /\
  ((Password u = Password user /\ PasswordSalt u = PasswordSalt user) \/
   PasswordResetToken u = "").
Proof.
  intros Hb Hf. unfold Password.password_reset. frame Hb Hf.
Qed.

(** Email-verify writes the identity it fetched, under that identity's
    email, and never touches id, email, password, salt, the reset token or
    the last login; it never takes the verified flag away. *)
Theorem email_verify_keeps_password
  (r : Request Password.verifyEmailRequest)
  (w : World S) (body : Password.verifyEmailRequest) (user : User)
  (e : string) (u : User) :
  Body r = Ok body ->
  FindFirst (Password.verify_Email body) (store w) = Ok user ->
  In (CallUpdateOne e u)
    (new_calls w (snd (Password.email_verify pc r w))) ->
  e = Email user /\ ID u = ID user /\ Email u = Email user /\
  Password u = Password user /\ PasswordSalt u = PasswordSalt user /\
  PasswordUpdatedOn u = PasswordUpdatedOn user /\
  PasswordResetToken u = PasswordResetToken user /\
  PasswordResetTokenExpiresAt u = PasswordResetTokenExpiresAt user /\
  LastLogin u = LastLogin user /\
  (EmailVerified user = true -> EmailVerified u = true).
Proof.
  intros Hb Hf. unfold Password.email_verify. frame Hb Hf.
Qed.

(** The magic link writes only on authentication: the identity it fetched,
    under the submitted email, verified and with the last login set to now,
    everything else as it was. *)
Theorem authorize_writes_only_login_and_flag
  (r : Request Passwordless.authenticateRequest)
  (w : World S) (body : Passwordless.authenticateRequest) (user : User)
  (e : string) (u : User) :
  Body r = Ok body ->
  First (Passwordless.auth_Email body) (store w) = Ok user ->
  In (CallUpdateOne e u)
    (new_calls w (snd (Passwordless.authorize lc r w))) ->
  Get (Query r) "action" = Passwordless.authenticate /\
  e = Passwordless.auth_Email body /\
  u = set_EmailVerified true (set_LastLogin (clock w) user).
Proof.
  intros Hb Hf. unfold Passwordless.authorize.
  rewrite Hb; unfold_go; simpl.
  repeat (case_match; simplify_eq/=).
  all: read_calls; no_such_call; simpl.
  all: repeat split; auto using String.eqb_eq.
  all: try (apply String.eqb_eq; assumption).
  all: destruct user; simpl in *; bool_facts; subst; reflexivity.
Qed.

End Frames.

Section MagicLinkPaths.
Context {S : Type} `{Model S}.
Variable lc : Passwordless.PasswordlessProviderConfig.

(** The authenticate action without a token, or with an empty one, is
    refused before anything is called. *)
Theorem authenticate_needs_token
  (r : Request Passwordless.authenticateRequest) (w : World S)
  (body : Passwordless.authenticateRequest) :
  Body r = Ok body ->
  Get (Query r) "action" = Passwordless.authenticate ->
  Query r !! "token" = None \/ Query r !! "token" = Some "" ->
  Passwordless.authorize lc r w = (JSON ResponseError StatusBadRequest "", w).
Proof.
  intros Hb Ha Ht. unfold Passwordless.authorize. rewrite Hb, Ha. simpl.
  assert (E : Get (Query r) "token" = "").
  { unfold Get. destruct Ht as [-> | ->]; reflexivity. }
  now rewrite E.
Qed.

(** A token whose decrypted email is not the submitted email, as a string,
    is refused with an empty message and before the store is read; so is
    every token that decrypts to the empty map. *)
Theorem authenticate_email_mismatch
  (r : Request Passwordless.authenticateRequest) (w : World S)
  (body : Passwordless.authenticateRequest) :
  Body r = Ok body ->
  Get (Query r) "action" = Passwordless.authenticate ->
  Get (Query r) "token" <> "" ->
  let claims := fst (Passwordless.Decrypt lc (Get (Query r) "token")) in
  claims !! "email" <> Some (AnyString (Passwordless.auth_Email body)) ->
  let out := Passwordless.authorize lc r w in
  fst out = JSON ResponseError StatusBadRequest "" /\
  store (snd out) = store w /\
  new_calls w (snd out) = [CallDecrypt (Get (Query r) "token")].
Proof.
  intros Hb Ha Ht claims Hne out. subst out.
  unfold Passwordless.authorize. rewrite Hb, Ha. unfold_go. simpl.
  rewrite (eqb_false_of_neq _ _ Ht). simpl. fold claims.
  assert (E : any_eq_string (map_index claims "email")
                (Passwordless.auth_Email body) = false).
  { unfold map_index. destruct (claims !! "email") as [v|] eqn:Hl;
      [|reflexivity].
    destruct v; simpl; try reflexivity.
    apply String.eqb_neq. intros ->. now apply Hne. }
  rewrite E. simpl. repeat split. read_calls. reflexivity.
Qed.

(** A token that decrypts to the submitted email and to an [int64] expiry
    not yet passed authenticates an identity the store holds: the identity
    is written verified with the last login set to now, and the answer is
    the bare success.  Neither the notifier nor the codec's [Encrypt] is
    called. *)
Lemma authenticate_accepts
  (r : Request Passwordless.authenticateRequest) (w : World S)
  (body : Passwordless.authenticateRequest) (expiry : Z) (user : User)
  (s' : S) :
  Body r = Ok body ->
  Get (Query r) "action" = Passwordless.authenticate ->
  Get (Query r) "token" <> "" ->
  let claims := fst (Passwordless.Decrypt lc (Get (Query r) "token")) in
  claims !! "email" = Some (AnyString (Passwordless.auth_Email body)) ->
  claims !! "expiry" = Some (AnyInt64 expiry) ->
  clock w <= expiry ->
  First (Passwordless.auth_Email body) (store w) = Ok user ->
  let user' := set_EmailVerified true (set_LastLogin (clock w) user) in
  UpdateOne (Passwordless.auth_Email body) user' (store w) = (None, s') ->
  let out := Passwordless.authorize lc r w in
  fst out = JSON ResponseSuccess StatusOK "" /\
  store (snd out) = s' /\
  new_calls w (snd out) =
    [CallDecrypt (Get (Query r) "token");
     CallFirst (Passwordless.auth_Email body);
     CallUpdateOne (Passwordless.auth_Email body) user'].
Proof.
  intros Hb Ha Ht claims Hem Hex Hc Hf user' Hu out. subst out.
  assert (Eu : (if negb (EmailVerified user)
                then set_EmailVerified true (set_LastLogin (clock w) user)
                else set_LastLogin (clock w) user) = user').
  { subst user'. destruct user as [? ? ? ? ? [] ? ? ? ? ? ?]; reflexivity. }
  unfold Passwordless.authorize. rewrite Hb, Ha. unfold_go. simpl.
  rewrite (eqb_false_of_neq _ _ Ht). cbn -[Z.gtb]. fold claims.
  unfold map_index. rewrite Hem, Hex. cbn -[Z.gtb].
  rewrite String.eqb_refl. cbn -[Z.gtb]. rewrite (gtb_false _ _ Hc).
  cbn -[Z.gtb]. rewrite Hf. cbn -[Z.gtb].
  rewrite Eu. rewrite Hu. simpl.
  repeat split. read_calls. reflexivity.
Qed.

(** An [int64] expiry that has passed is refused as expired, before the
    store is read. *)
Lemma authenticate_refuses_expired
  (r : Request Passwordless.authenticateRequest) (w : World S)
  (body : Passwordless.authenticateRequest) (expiry : Z) :
  Body r = Ok body ->
  Get (Query r) "action" = Passwordless.authenticate ->
  Get (Query r) "token" <> "" ->
  let claims := fst (Passwordless.Decrypt lc (Get (Query r) "token")) in
  claims !! "email" = Some (AnyString (Passwordless.auth_Email body)) ->
  claims !! "expiry" = Some (AnyInt64 expiry) ->
  expiry < clock w ->
  let out := Passwordless.authorize lc r w in
  fst out = JSON ResponseError StatusBadRequest
              "validation token has expire, please try again" /\
  store (snd out) = store w /\
  new_calls w (snd out) = [CallDecrypt (Get (Query r) "token")].
Proof.
  intros Hb Ha Ht claims Hem Hex Hc out. subst out.
  unfold Passwordless.authorize. rewrite Hb, Ha. unfold_go. simpl.
  rewrite (eqb_false_of_neq _ _ Ht). cbn -[Z.gtb]. fold claims.
  unfold map_index. rewrite Hem, Hex. cbn -[Z.gtb].
  rewrite String.eqb_refl. cbn -[Z.gtb]. rewrite (gtb_true _ _ Hc).
  simpl. repeat split. read_calls. reflexivity.
Qed.

(** The resend action is for identities the store holds: for any other
    email it answers "user not found" and neither encrypts nor notifies.
    For an identity the store holds it encrypts the claims of the submitted
    email with the expiry now + 10min and hands the notifier the encrypted
    token, whatever [Encrypt] reports. *)
Theorem resend_requires_identity
  (r : Request Passwordless.authenticateRequest) (w : World S)
  (body : Passwordless.authenticateRequest) :
  Body r = Ok body ->
  Get (Query r) "action" = Passwordless.resend ->
  let email := Passwordless.auth_Email body in
  let out := Passwordless.authorize lc r w in
  store (snd out) = store w /\
  match First email (store w) with
  | Err _ =>
    fst out = JSON ResponseError StatusBadRequest "user not found" /\
    new_calls w (snd out) = [CallFirst email]
  | Ok _ =>
    fst out = JSON ResponseSuccess StatusOK "" /\
    new_calls w (snd out) =
      [CallFirst email;
       CallEncrypt (Passwordless.claims_of email (clock w));
       CallNotify email
         (fst (Passwordless.Encrypt lc
                 (Passwordless.claims_of email (clock w))))]
  end.
Proof.
  intros Hb Ha email out. subst out email.
  unfold Passwordless.authorize. rewrite Hb, Ha. unfold_go. simpl.
  destruct (First _ _) as [u|e]; simpl.
  all: repeat split; read_calls; reflexivity.
Qed.

End MagicLinkPaths.

Section MagicLinkRoundTrip.
Context {S : Type} `{Model S}.
Variable lc : Passwordless.PasswordlessProviderConfig.

(** A link issued for an identity the store holds, by the default or by the
    resend action, authenticates that email for the next ten minutes and is
    refused as expired afterwards, provided the codec gives back the claims
    it encrypted and the token is not the empty string.  The token is the
    one handed to the notifier. *)
Theorem magic_link_round_trip
  (r1 r2 : Request Passwordless.authenticateRequest) (w : World S)
  (body : Passwordless.authenticateRequest) (user : User) (n : N) :
  let email := Passwordless.auth_Email body in
  let claims := Passwordless.claims_of email (clock w) in
  let token := fst (Passwordless.Encrypt lc claims) in
  Body r1 = Ok body ->
  Get (Query r1) "action" <> Passwordless.authenticate ->
  First email (store w) = Ok user ->
  token <> "" ->
  fst (Passwordless.Decrypt lc token) = claims ->
  Body r2 = Ok body ->
  Get (Query r2) "action" = Passwordless.authenticate ->
  Get (Query r2) "token" = token ->
  let w1 := snd (Passwordless.authorize lc r1 w) in
  let out := Passwordless.authorize lc r2 (later n w1) in
  In (CallNotify email token) (new_calls w w1) /\
  (Z.of_N n <= Minute * 10 ->
   fst (UpdateOne email
          (set_EmailVerified true
             (set_LastLogin (clock w + Z.of_N n) user)) (store w)) = None ->
   fst out = JSON ResponseSuccess StatusOK "") /\
  (Minute * 10 < Z.of_N n ->
   fst out = JSON ResponseError StatusBadRequest
               "validation token has expire, please try again").
Proof.
  intros email claims token Hb1 Ha1 Hf Hne Hrt Hb2 Ha2 Ht2 w1 out.
  assert (Hw1 : store w1 = store w /\ clock w1 = clock w /\
                In (CallNotify email token) (new_calls w w1)).
  { subst w1. unfold Passwordless.authorize. rewrite Hb1. unfold_go. simpl.
    rewrite (eqb_false_of_neq _ _ Ha1).
    destruct (String.eqb _ Passwordless.resend); simpl.
    all: fold email; rewrite Hf; simpl.
    all: repeat split; read_calls; simpl; auto. }
  destruct Hw1 as (Hs1 & Hc1 & Hn1).
  split; [exact Hn1|].
  destruct (claims_of_lookup email (clock w)) as [Hex Hem].
  fold claims in Hex, Hem.
  split.
  - intros Hn Hu.
    destruct (UpdateOne email
                (set_EmailVerified true
                   (set_LastLogin (clock w + Z.of_N n) user)) (store w))
      as [o s'] eqn:HU.
    simpl in Hu. subst o.
    apply (authenticate_accepts lc r2 (later n w1) body
             (clock w + Minute * 10) user s'); auto.
    + rewrite Ht2. exact Hne.
    + rewrite Ht2, Hrt. exact Hem.
    + rewrite Ht2, Hrt. exact Hex.
    + simpl. rewrite Hc1. lia.
    + simpl. rewrite Hs1. exact Hf.
    + simpl. rewrite Hs1, Hc1. exact HU.
  - intros Hn.
    apply (authenticate_refuses_expired lc r2 (later n w1) body
             (clock w + Minute * 10)); auto.
    + rewrite Ht2. exact Hne.
    + rewrite Ht2, Hrt. exact Hem.
    + rewrite Ht2, Hrt. exact Hex.
    + simpl. rewrite Hc1. lia.
Qed.

End MagicLinkRoundTrip.

(** * Further properties of the registry and of the configuration *)

Section RegistryMore.
Context {R : Type}.

Lemma New_fold (regs : list (Registration R)) (a : Authentication.Auth R) :
  fold_left (fun cfg opt => opt cfg) (map option_of regs) a
  = Authentication.mkAuth
      (Authentication.providers a ++ strategies_of regs)
      (Authentication.router a)
      (session_of (Authentication.session a) regs).
Proof.
  revert a. induction regs as [|[p|s] regs IH]; intros [ps r s0]; simpl.
  - now rewrite app_nil_r.
  - rewrite IH. simpl. now rewrite <- app_assoc.
  - now rewrite IH.
Qed.

(** [New] keeps the router it is given, registers the strategies in the
    order of the options, and takes the session registered last, the
    server session when none is registered. *)
Theorem New_registers_in_order (r : list Route)
  (regs : list (Registration R)) :
  Authentication.New r (map option_of regs)
  = Authentication.mkAuth (strategies_of regs) r
      (session_of Authentication.ServerSession regs).
Proof. unfold Authentication.New. now rewrite New_fold. Qed.

Lemma Build_range_appends (ps : list (Authentication.Provider R))
  (routes : Authentication.Provider R -> list Route)
  (s : Authentication.Session) (r : list Route) :
  Forall (fun p => appends p (routes p)) ps ->
  fst (Authentication.Build_range ps s r) = r ++ concat (map routes ps).
Proof.
  revert r. induction ps as [|p ps IH]; intros r Hall; simpl.
  - now rewrite app_nil_r.
  - inversion Hall as [|? ? Hp Hrest]; subst.
    specialize (Hp r s).
    destruct (Authentication.Init p r s) as [r' x]. simpl in Hp. subst r'.
    specialize (IH (r ++ routes p) Hrest).
    destruct (Authentication.Build_range ps s (r ++ routes p)) as [r'' log].
    simpl in *. now rewrite IH, <- app_assoc.
Qed.

(** With hooks that only append their routes, [Build] leaves on the router
    the routes it had, followed by the routes of each strategy in the order
    of registration; registering the same strategies in another order
    installs the same routes, in another order. *)
Theorem Build_appends_routes (a b : Authentication.Auth R)
  (routes : Authentication.Provider R -> list Route) :
  Forall (fun p => appends p (routes p)) (Authentication.providers a) ->
  Authentication.providers b ≡ₚ Authentication.providers a ->
  Authentication.router b = Authentication.router a ->
  fst (fst (Authentication.Build a))
  = Authentication.router a
    ++ concat (map routes (Authentication.providers a)) /\
  fst (fst (Authentication.Build b)) ≡ₚ fst (fst (Authentication.Build a)).
Proof.
  intros Ha Hperm Hr.
  assert (Hb : Forall (fun p => appends p (routes p))
                 (Authentication.providers b)).
  { rewrite Forall_forall in *. intros p Hp. apply Ha.
    now rewrite <- Hperm. }
  assert (Ea := Build_range_appends _ routes (Authentication.session a)
                  (Authentication.router a) Ha).
  assert (Eb := Build_range_appends _ routes (Authentication.session b)
                  (Authentication.router b) Hb).
  unfold Authentication.Build.
  destruct (Authentication.Build_range (Authentication.providers a) _ _)
    as [ra la].
  destruct (Authentication.Build_range (Authentication.providers b) _ _)
    as [rb lb].
  simpl in *. subst ra rb. split; [reflexivity|].
  rewrite Hr. apply Permutation_app_head.
  now rewrite Hperm.
Qed.

End RegistryMore.

Section ConfigOptions.
Variables Store JWT : Type.
Variable IDKey : string -> string -> Z -> Z -> Z -> Z -> string.

Lemma offered_keeps (opt : PasswordConfig.Fields Store JWT ->
                           PasswordConfig.Fields Store JWT)
  (cfg : PasswordConfig.Fields Store JWT) :
  PasswordConfig.offered Store JWT opt ->
  PasswordConfig.issuer _ _ (opt cfg) = PasswordConfig.issuer _ _ cfg /\
  PasswordConfig.audience _ _ (opt cfg) = PasswordConfig.audience _ _ cfg /\
  PasswordConfig.hash _ _ (opt cfg) = PasswordConfig.hash _ _ cfg.
Proof.
  intros [[j ->] | [[m ->] | [n ->]]]; repeat split.
Qed.

(** Whatever options of the package are passed to [Config], the issuer and
    the audience are the demo strings and the hasher is [argonHasher]; with
    no option the store, the notifier and the signer are nil, and an option
    passed last decides its field. *)
Theorem Config_defaults_survive
  (opts : list (PasswordConfig.Fields Store JWT ->
                PasswordConfig.Fields Store JWT)) :
  Forall (PasswordConfig.offered Store JWT) opts ->
  let cfg := PasswordConfig.Config Store JWT IDKey opts in
  PasswordConfig.issuer _ _ cfg = "demo-issuer" /\
  PasswordConfig.audience _ _ cfg = "demo-audience" /\
  PasswordConfig.hash _ _ cfg = Password.argonHasher IDKey /\
  (opts = [] ->
   PasswordConfig.store _ _ cfg = None /\
   PasswordConfig.notify _ _ cfg = None /\
   PasswordConfig.jwt _ _ cfg = None) /\
  (forall n,
     PasswordConfig.notify _ _
       (PasswordConfig.Config Store JWT IDKey
          (opts ++ [PasswordConfig.withNotifier Store JWT n])) = Some n) /\
  (forall m,
     PasswordConfig.store _ _
       (PasswordConfig.Config Store JWT IDKey
          (opts ++ [PasswordConfig.withModel Store JWT m])) = Some m) /\
  (forall j,
     PasswordConfig.jwt _ _
       (PasswordConfig.Config Store JWT IDKey
          (opts ++ [PasswordConfig.withJWT Store JWT j])) = Some j).
Proof.
  intros Hall cfg. subst cfg. unfold PasswordConfig.Config.
  assert (G : forall c0,
    let c := fold_left (fun cfg opt => opt cfg) opts c0 in
    PasswordConfig.issuer _ _ c = PasswordConfig.issuer _ _ c0 /\
    PasswordConfig.audience _ _ c = PasswordConfig.audience _ _ c0 /\
    PasswordConfig.hash _ _ c = PasswordConfig.hash _ _ c0).
  { induction Hall as [|opt opts Hopt Hrest IH]; intros c0; simpl.
    - repeat split.
    - destruct (IH (opt c0)) as (I1 & I2 & I3).
      destruct (offered_keeps opt c0 Hopt) as (K1 & K2 & K3).
      simpl in *. rewrite I1, I2, I3. auto. }
  destruct (G (PasswordConfig.mkFields Store JWT "demo-issuer" "demo-audience"
                 (Password.argonHasher IDKey) None None None))
    as (G1 & G2 & G3).
  simpl in *.
  split; [exact G1|]. split; [exact G2|]. split; [exact G3|].
  split; [intros ->; repeat split|].
  repeat split; intros x; now rewrite fold_left_app.
Qed.

End ConfigOptions.

(** * Further properties on the in-memory store *)

Ltac on_mem :=
  unfold_go; simpl; unfold mem_find, mem_update, mem_save in *;
  repeat (case_match; simplify_eq/=).

Section OneIdentityPerRequest.
Variable pc : Password.PasswordProviderConfig.
Variable lc : Passwordless.PasswordlessProviderConfig.

Lemma well_keyed_lookup (s : gmap string User) (e : string) (u : User) :
  well_keyed s -> s !! e = Some u -> Email u = e.
Proof. intros Hs Hl. exact (Hs e u Hl). Qed.

Ltac key_facts Hk :=
  repeat match goal with
  | Hl : _ !! _ = Some _ |- _ => apply (well_keyed_lookup _ _ _ Hk) in Hl
  end.

Ltac close_keyed Hk :=
  first
    [ exact Hk
    | apply map_Forall_insert_2;
      [reflexivity | apply map_Forall_delete; exact Hk]
    | apply map_Forall_insert_2; [reflexivity | exact Hk] ].

Ltac close_frame Hk Hn :=
  first
    [ reflexivity
    | key_facts Hk; simpl in *;
      rewrite lookup_insert_ne by congruence;
      first [ rewrite lookup_delete_ne by congruence; reflexivity
            | reflexivity ] ].

Lemma step_one_identity (st : Step) (w : World (gmap string User)) :
  well_keyed (store w) ->
  well_keyed (store (step pc lc st w)) /\
  forall e, named st <> Some e ->
            store (step pc lc st w) !! e = store w !! e.
Proof.
  intros Hk. destruct st as [r|r|r|r|r|n]; simpl.
  - unfold Password.login. split; [|intros e Hn].
    all: on_mem; first [close_keyed Hk | close_frame Hk Hn].
  - unfold Password.register. split; [|intros e Hn].
    all: on_mem; first [close_keyed Hk | close_frame Hk Hn].
  - unfold Password.password_reset. split; [|intros e Hn].
    all: on_mem; first [close_keyed Hk | close_frame Hk Hn].
  - unfold Password.email_verify. split; [|intros e Hn].
    all: on_mem; first [close_keyed Hk | close_frame Hk Hn].
  - unfold Passwordless.authorize. split; [|intros e Hn].
    all: on_mem; first [close_keyed Hk | close_frame Hk Hn].
  - split; [exact Hk | reflexivity].
Qed.

(** On a store keyed by email, every sequence of requests leaves the store
    keyed by email and leaves alone every identity whose email no request
    of the sequence names in its body. *)
Theorem requests_touch_only_named_identities
  (sts : list Step) (w : World (gmap string User)) :
  well_keyed (store w) ->
  well_keyed (store (run pc lc sts w)) /\
  forall e, Forall (fun st => named st <> Some e) sts ->
            store (run pc lc sts w) !! e = store w !! e.
Proof.
  revert w. induction sts as [|st sts IH]; intros w Hk; simpl.
  - split; [exact Hk | reflexivity].
  - destruct (step_one_identity st w Hk) as [Hk1 Hf1].
    destruct (IH _ Hk1) as [Hk2 Hf2].
    split; [exact Hk2|].
    intros e Hall. inversion Hall as [|? ? Hst Hrest]; subst.
    rewrite (Hf2 e Hrest). now apply Hf1.
Qed.

End OneIdentityPerRequest.

Section MemRuns.
Variable pc : Password.PasswordProviderConfig.

Lemma argon_compare_same
  (IDKey : string -> string -> Z -> Z -> Z -> Z -> string)
  (password salt : string) (heap : nat) :
  let hs := Password.argonHasher IDKey in
  Password.compare hs password salt (Password.hash hs password salt) heap
  = (None, heap).
Proof.
  unfold Password.argonHasher, Password.ConstantTimeCompare. simpl.
  now rewrite String.eqb_refl.
Qed.

Lemma mem_register_run (r : Request Password.registerRequest)
  (w : World (gmap string User)) (body : Password.registerRequest) :
  Body r = Ok body ->
  store w !! Password.register_Email body = None ->
  let w1 := snd (Password.register pc r w) in
  exists u,
    store w1 !! Password.register_Email body = Some u /\
    clock w1 = clock w /\
    Email u = Password.register_Email body /\
    EmailVerified u = false /\
    Password u = Password.hash (Password.hasher pc)
                   (Password.register_Password body) (PasswordSalt u) /\
    EmailVerifyTokenExpiresAt u = clock w + Hour * 2 /\
    In (CallNotify (Password.register_Email body) (EmailVerifyToken u))
      (new_calls w w1).
Proof.
  intros Hb Hl w1. subst w1.
  unfold Password.register. rewrite Hb. unfold_go. simpl.
  unfold mem_save. simpl. rewrite Hl. simpl.
  destruct (Password.notify _ _ _); simpl.
  all: eexists; split; [apply lookup_insert_eq|]; simpl.
  all: repeat split; read_calls; simpl; auto.
Qed.

Lemma mem_verify_run (r : Request Password.verifyEmailRequest)
  (w : World (gmap string User)) (body : Password.verifyEmailRequest)
  (user : User) :
  Body r = Ok body ->
  Get (Query r) "action" <> Password.resend ->
  store w !! Password.verify_Email body = Some user ->
  Email user = Password.verify_Email body ->
  Password.verify_Token body = EmailVerifyToken user ->
  clock w <= EmailVerifyTokenExpiresAt user ->
  let out := Password.email_verify pc r w in
  fst out = JSON ResponseSuccess StatusOK
              "email successfully verified, redirect to login" /\
  clock (snd out) = clock w /\
  store (snd out) !! Password.verify_Email body
  = Some (set_EmailVerifiedAt (clock w)
            (set_EmailVerifyTokenExpiresAt zeroTime
               (set_EmailVerified true (set_EmailVerifyToken "" user)))).
Proof.
  intros Hb Ha Hl He Ht Hc out. subst out.
  unfold Password.email_verify. rewrite Hb. unfold_go. simpl.
  unfold mem_find, mem_update. rewrite Hl. simpl.
  rewrite (eqb_false_of_neq _ _ Ha). rewrite Ht, String.eqb_refl. simpl.
  rewrite (gtb_false _ _ Hc). simpl. rewrite He, Hl. simpl.
  split; [reflexivity|]. split; [reflexivity|]. apply lookup_insert_eq.
Qed.

Lemma mem_reset_request_run (r : Request Password.resetPasswordRequest)
  (w : World (gmap string User)) (body : Password.resetPasswordRequest)
  (user : User) :
  Body r = Ok body ->
  Get (Query r) "action" = Password.reset ->
  store w !! Password.reset_Email body = Some user ->
  Email user = Password.reset_Email body ->
  let w1 := snd (Password.password_reset pc r w) in
  clock w1 = clock w /\
  store w1 !! Password.reset_Email body
  = Some (set_PasswordResetTokenExpiresAt (clock w + Hour * 1)
            (set_PasswordResetToken (fresh 6 w) user)) /\
  In (CallNotify (Password.reset_Email body) (fresh 6 w)) (new_calls w w1).
Proof.
  intros Hb Ha Hl He w1. subst w1.
  unfold Password.password_reset. rewrite Hb. unfold_go. simpl.
  unfold mem_find, mem_update. rewrite Hl. simpl. rewrite Ha. simpl.
  rewrite He, Hl. simpl.
  destruct (Password.notify _ _ _); simpl.
  all: split; [reflexivity|]; split; [apply lookup_insert_eq|].
  all: read_calls; simpl; auto.
Qed.

Lemma mem_reset_consume_run (r : Request Password.resetPasswordRequest)
  (w : World (gmap string User)) (body : Password.resetPasswordRequest)
  (user : User) :
  Body r = Ok body ->
  Get (Query r) "action" <> Password.reset ->
  store w !! Password.reset_Email body = Some user ->
  Email user = Password.reset_Email body ->
  Password.reset_Token body = PasswordResetToken user ->
  clock w <= PasswordResetTokenExpiresAt user ->
  let out := Password.password_reset pc r w in
  fst out = JSON ResponseSuccess StatusOK
              "password changed, redirect to login" /\
  clock (snd out) = clock w /\
  store (snd out) !! Password.reset_Email body
  = Some (set_PasswordUpdatedOn (clock w)
            (set_Password
               (Password.hash (Password.hasher pc)
                  (Password.reset_NewPassword body) (fresh 16 w))
               (set_PasswordSalt (fresh 16 w)
                  (set_PasswordResetToken "" user)))).
Proof.
  intros Hb Ha Hl He Ht Hc out. subst out.
  unfold Password.password_reset. rewrite Hb. unfold_go. simpl.
  unfold mem_find, mem_update. rewrite Hl. simpl.
  rewrite (eqb_false_of_neq _ _ Ha). rewrite Ht, String.eqb_refl. simpl.
  rewrite (gtb_false _ _ Hc). simpl. rewrite He, Hl. simpl.
  split; [reflexivity|]. split; [reflexivity|]. apply lookup_insert_eq.
Qed.

Lemma mem_login_run
  (IDKey : string -> string -> Z -> Z -> Z -> Z -> string)
  (r : Request Password.loginRequest)
  (w : World (gmap string User)) (body : Password.loginRequest)
  (user : User) :
  Password.hasher pc = Password.argonHasher IDKey ->
  (forall c, exists t, Password.jwt_Sign pc c = Ok t) ->
  Body r = Ok body ->
  Get (Query r) "action" <> Password.verify ->
  store w !! Password.login_Email body = Some user ->
  Email user = Password.login_Email body ->
  EmailVerified user = true ->
  Password user = Password.hash (Password.argonHasher IDKey)
                    (Password.login_Password body) (PasswordSalt user) ->
  exists t,
    fst (Password.login pc r w)
    = SetData (set_LastLogin (clock w) user) t
        (JSON ResponseSuccess StatusOK "successfull login attempt").
Proof.
  intros Hh Hs Hb Ha Hl He Hv Hp.
  destruct (Hs (Password.mkJWTClaims (Password.issuer pc)
                  (Password.audience pc) (ID user)
                  (clock w + Hour * 24 * 30))) as [t Ht].
  exists t.
  unfold Password.login. rewrite Hb. unfold_go. simpl.
  unfold mem_find, mem_update. rewrite Hl. simpl. rewrite Hv. simpl.
  rewrite (eqb_false_of_neq _ _ Ha). simpl.
  rewrite Hh, Hp, argon_compare_same. simpl.
  rewrite He, Hl. simpl. rewrite Ht. reflexivity.
Qed.

End MemRuns.

Section SingleUse.
Variable pc : Password.PasswordProviderConfig.

(** A verify token is good for one use: once [/email-verify] has accepted
    it, the identity is verified and the same request, at any later time,
    is answered "invalid verification token" and changes nothing. *)
Theorem verify_token_is_single_use
  (r : Request Password.verifyEmailRequest) (w : World (gmap string User))
  (body : Password.verifyEmailRequest) (user : User) (n : N) :
  Body r = Ok body ->
  Get (Query r) "action" <> Password.resend ->
  store w !! Password.verify_Email body = Some user ->
  Email user = Password.verify_Email body ->
  Password.verify_Token body = EmailVerifyToken user ->
  Password.verify_Token body <> "" ->
  clock w <= EmailVerifyTokenExpiresAt user ->
  let out1 := Password.email_verify pc r w in
  let out2 := Password.email_verify pc r (later n (snd out1)) in
  fst out1 = JSON ResponseSuccess StatusOK
               "email successfully verified, redirect to login" /\
  (EmailVerified <$> store (snd out1) !! Password.verify_Email body)
    = Some true /\
  fst out2 = JSON ResponseFail StatusBadRequest "invalid verification token" /\
  store (snd out2) = store (snd out1).
Proof.
  intros Hb Ha Hl He Ht Hne Hc out1 out2.
  destruct (mem_verify_run pc r w body user Hb Ha Hl He Ht Hc)
    as (R1 & _ & L1).
  fold out1 in R1, L1.
  split; [exact R1|]. split; [now rewrite L1|].
  clearbody out1. subst out2.
  unfold Password.email_verify. rewrite Hb. unfold_go.
  simpl. unfold mem_find. rewrite L1. simpl.
  rewrite (eqb_false_of_neq _ _ Ha). rewrite (eqb_false_of_neq _ _ Hne).
  simpl. split; reflexivity.
Qed.

(** A reset token is good for one use: once [/password-reset] has accepted
    it, the stored password is the hash of the new secret under a fresh
    salt, and the same request, at any later time, is answered
    "invalid reset token" and changes nothing. *)
Theorem reset_token_is_single_use
  (r : Request Password.resetPasswordRequest) (w : World (gmap string User))
  (body : Password.resetPasswordRequest) (user : User) (n : N) :
  Body r = Ok body ->
  Get (Query r) "action" <> Password.reset ->
  store w !! Password.reset_Email body = Some user ->
  Email user = Password.reset_Email body ->
  Password.reset_Token body = PasswordResetToken user ->
  Password.reset_Token body <> "" ->
  clock w <= PasswordResetTokenExpiresAt user ->
  let out1 := Password.password_reset pc r w in
  let out2 := Password.password_reset pc r (later n (snd out1)) in
  fst out1 = JSON ResponseSuccess StatusOK
               "password changed, redirect to login" /\
  (Password <$> store (snd out1) !! Password.reset_Email body)
    = Some (Password.hash (Password.hasher pc)
              (Password.reset_NewPassword body) (fresh 16 w)) /\
  (PasswordSalt <$> store (snd out1) !! Password.reset_Email body)
    = Some (fresh 16 w) /\
  fst out2 = JSON ResponseFail StatusBadRequest "invalid reset token" /\
  store (snd out2) = store (snd out1).
Proof.
  intros Hb Ha Hl He Ht Hne Hc out1 out2.
  destruct (mem_reset_consume_run pc r w body user Hb Ha Hl He Ht Hc)
    as (R1 & _ & L1).
  fold out1 in R1, L1.
  split; [exact R1|]. split; [now rewrite L1|]. split; [now rewrite L1|].
  clearbody out1. subst out2.
  unfold Password.password_reset. rewrite Hb. unfold_go.
  simpl. unfold mem_find. rewrite L1. simpl.
  rewrite (eqb_false_of_neq _ _ Ha). rewrite (eqb_false_of_neq _ _ Hne).
  simpl. split; reflexivity.
Qed.

End SingleUse.

Section Journeys.
Variable pc : Password.PasswordProviderConfig.
Variable IDKey : string -> string -> Z -> Z -> Z -> Z -> string.
Hypothesis hasher_is_argon : Password.hasher pc = Password.argonHasher IDKey.
Hypothesis signer_signs : forall c, exists t, Password.jwt_Sign pc c = Ok t.

(** A login right after a registration, or at any time before the email is
    verified, is not a session: whatever the password and the query, it
    carries no identity and no token, the hasher is not asked to compare,
    and when the notifier accepts the new code the answer is the
    verification notice. *)
Theorem register_then_login_asks_for_verification
  (r1 : Request Password.registerRequest)
  (r2 : Request Password.loginRequest)
  (w : World (gmap string User))
  (b1 : Password.registerRequest) (b2 : Password.loginRequest) (n : N) :
  Body r1 = Ok b1 ->
  store w !! Password.register_Email b1 = None ->
  Body r2 = Ok b2 ->
  Password.login_Email b2 = Password.register_Email b1 ->
  let w1 := later n (snd (Password.register pc r1 w)) in
  let out := Password.login pc r2 w1 in
  Data (fst out) = None /\
  (forall p s d, ~ In (CallCompare p s d) (new_calls w1 (snd out))) /\
  (Password.notify pc (Password.login_Email b2) (fresh 4 w1) = None ->
   fst out = JSON ResponseSuccess StatusOK
     "your email is yet to be verified, please check your email for verification code").
Proof.
  intros Hb1 Hl Hb2 He w1 out.
  destruct (mem_register_run pc r1 w b1 Hb1 Hl)
    as (u & Lu & _ & Eu & Vu & _).
  assert (L1 : store w1 !! Password.login_Email b2 = Some u).
  { subst w1. simpl. now rewrite He. }
  clearbody w1. subst out.
  unfold Password.login. rewrite Hb2. unfold_go. simpl.
  unfold mem_find, mem_update. rewrite L1. simpl. rewrite Vu. simpl.
  rewrite Eu, <- He, L1. simpl.
  destruct (Password.notify _ _ _) eqn:Hn; simpl.
  all: split; [reflexivity|]; split;
    [intros p s d; read_calls; no_such_call|].
  - intros C. unfold fresh in C. simpl in C. congruence.
  - reflexivity.
Qed.

(** Registration, then verification with the code that was stored and sent,
    within its two hours, then login with the registered password: the
    login succeeds and answers with the identity, verified, and a signed
    token. *)
Theorem register_verify_login_succeeds
  (r1 : Request Password.registerRequest)
  (r2 : Request Password.verifyEmailRequest)
  (r3 : Request Password.loginRequest)
  (w : World (gmap string User))
  (b1 : Password.registerRequest) (b2 : Password.verifyEmailRequest)
  (b3 : Password.loginRequest) (n1 n2 : N) :
  Body r1 = Ok b1 ->
  store w !! Password.register_Email b1 = None ->
  let w1 := snd (Password.register pc r1 w) in
  Body r2 = Ok b2 ->
  Get (Query r2) "action" <> Password.resend ->
  Password.verify_Email b2 = Password.register_Email b1 ->
  In (CallNotify (Password.register_Email b1) (Password.verify_Token b2))
    (new_calls w w1) ->
  Z.of_N n1 <= Hour * 2 ->
  let out2 := Password.email_verify pc r2 (later n1 w1) in
  Body r3 = Ok b3 ->
  Get (Query r3) "action" <> Password.verify ->
  Password.login_Email b3 = Password.register_Email b1 ->
  Password.login_Password b3 = Password.register_Password b1 ->
  let out3 := Password.login pc r3 (later n2 (snd out2)) in
  fst out2 = JSON ResponseSuccess StatusOK
               "email successfully verified, redirect to login" /\
  exists u t,
    fst out3 = SetData u t
                 (JSON ResponseSuccess StatusOK "successfull login attempt") /\
    Email u = Password.register_Email b1 /\
    EmailVerified u = true /\
    EmailVerifyToken u = "" /\
    LastLogin u = clock w + Z.of_N n1 + Z.of_N n2.
Proof.
  intros Hb1 Hl w1 Hb2 Ha2 He2 Hsent Hn1 out2 Hb3 Ha3 He3 Hp3 out3.
  assert (R : exists u,
    store w1 !! Password.register_Email b1 = Some u /\
    clock w1 = clock w /\
    Email u = Password.register_Email b1 /\
    Password u = Password.hash (Password.hasher pc)
                   (Password.register_Password b1) (PasswordSalt u) /\
    EmailVerifyTokenExpiresAt u = clock w + Hour * 2 /\
    EmailVerifyToken u = Password.verify_Token b2).
  { subst w1. revert Hsent.
    unfold Password.register. rewrite Hb1. unfold_go. simpl.
    unfold mem_save. simpl. rewrite Hl. simpl.
    destruct (Password.notify _ _ _); simpl.
    all: read_calls; intros Hsent; simpl in Hsent; no_such_call.
    all: eexists; split; [apply lookup_insert_eq|]; simpl.
    all: repeat split; auto. }
  destruct R as (u & Lu & Cu & Eu & Pu & Xu & Tu).
  clearbody w1.
  assert (P1 : store (later n1 w1) !! Password.verify_Email b2 = Some u)
    by (simpl; now rewrite He2).
  assert (P2 : Email u = Password.verify_Email b2) by now rewrite He2.
  assert (P3 : Password.verify_Token b2 = EmailVerifyToken u)
    by now rewrite Tu.
  assert (P4 : clock (later n1 w1) <= EmailVerifyTokenExpiresAt u)
    by (simpl; rewrite Cu, Xu; lia).
  destruct (mem_verify_run pc r2 (later n1 w1) b2 u Hb2 Ha2 P1 P2 P3 P4)
    as (R2 & C2 & L2).
  fold out2 in R2, C2, L2. split; [exact R2|].
  clearbody out2.
  remember (set_EmailVerifiedAt (clock (later n1 w1))
              (set_EmailVerifyTokenExpiresAt zeroTime
                 (set_EmailVerified true (set_EmailVerifyToken "" u)))) as v.
  assert (Q1 : store (later n2 (snd out2)) !! Password.login_Email b3
               = Some v) by (simpl; rewrite He3, <- He2; exact L2).
  assert (Q2 : Email v = Password.login_Email b3)
    by (subst v; simpl; now rewrite He3).
  assert (Q3 : EmailVerified v = true) by (subst v; reflexivity).
  assert (Q4 : Password v = Password.hash (Password.argonHasher IDKey)
                              (Password.login_Password b3) (PasswordSalt v))
    by (subst v; rewrite <- hasher_is_argon, Hp3; exact Pu).
  destruct (mem_login_run pc IDKey r3 (later n2 (snd out2)) b3 v
              hasher_is_argon signer_signs Hb3 Ha3 Q1 Q2 Q3 Q4) as [t Ht].
  fold out3 in Ht. exists (set_LastLogin (clock (later n2 (snd out2))) v), t.
  split; [exact Ht|]. subst v. simpl.
  repeat split; auto. rewrite C2. simpl. now rewrite Cu.
Qed.

(** A password reset from request to use: the code that the request stored
    and sent, submitted within its hour with a new secret, changes the
    password, after which a login with the new secret succeeds. *)
Theorem reset_then_login_with_new_password
  (r1 r2 : Request Password.resetPasswordRequest)
  (r3 : Request Password.loginRequest)
  (w : World (gmap string User)) (user : User)
  (b1 b2 : Password.resetPasswordRequest) (b3 : Password.loginRequest)
  (n1 n2 : N) :
  let email := Password.reset_Email b1 in
  store w !! email = Some user ->
  Email user = email ->
  EmailVerified user = true ->
  Body r1 = Ok b1 ->
  Get (Query r1) "action" = Password.reset ->
  let w1 := snd (Password.password_reset pc r1 w) in
  Body r2 = Ok b2 ->
  Get (Query r2) "action" <> Password.reset ->
  Password.reset_Email b2 = email ->
  Password.reset_Token b2 = fresh 6 w ->
  Z.of_N n1 <= Hour * 1 ->
  let out2 := Password.password_reset pc r2 (later n1 w1) in
  Body r3 = Ok b3 ->
  Get (Query r3) "action" <> Password.verify ->
  Password.login_Email b3 = email ->
  Password.login_Password b3 = Password.reset_NewPassword b2 ->
  let out3 := Password.login pc r3 (later n2 (snd out2)) in
  In (CallNotify email (fresh 6 w)) (new_calls w w1) /\
  fst out2 = JSON ResponseSuccess StatusOK
               "password changed, redirect to login" /\
  exists u t,
    fst out3 = SetData u t
                 (JSON ResponseSuccess StatusOK "successfull login attempt") /\
    Email u = email /\ PasswordResetToken u = "" /\
    PasswordUpdatedOn u = clock w + Z.of_N n1.
Proof.
  intros email Hl He Hv Hb1 Ha1 w1 Hb2 Ha2 He2 Ht2 Hn1 out2
    Hb3 Ha3 He3 Hp3 out3.
  destruct (mem_reset_request_run pc r1 w b1 user Hb1 Ha1 Hl He)
    as (C1 & L1 & N1).
  fold w1 in C1, L1, N1. split; [exact N1|]. clearbody w1.
  remember (set_PasswordResetTokenExpiresAt (clock w + Hour * 1)
              (set_PasswordResetToken (fresh 6 w) user)) as u1.
  assert (P1 : store (later n1 w1) !! Password.reset_Email b2 = Some u1)
    by (simpl; rewrite He2; exact L1).
  assert (P2 : Email u1 = Password.reset_Email b2)
    by (subst u1; simpl; now rewrite He2).
  assert (P3 : Password.reset_Token b2 = PasswordResetToken u1)
    by (subst u1; simpl; exact Ht2).
  assert (P4 : clock (later n1 w1) <= PasswordResetTokenExpiresAt u1)
    by (subst u1; simpl; rewrite C1; lia).
  destruct (mem_reset_consume_run pc r2 (later n1 w1) b2 u1 Hb2 Ha2
              P1 P2 P3 P4) as (R2 & C2 & L2).
  fold out2 in R2, C2, L2. split; [exact R2|]. clearbody out2.
  remember (set_PasswordUpdatedOn (clock (later n1 w1))
              (set_Password
                 (Password.hash (Password.hasher pc)
                    (Password.reset_NewPassword b2) (fresh 16 (later n1 w1)))
                 (set_PasswordSalt (fresh 16 (later n1 w1))
                    (set_PasswordResetToken "" u1)))) as u2.
  assert (Q1 : store (later n2 (snd out2)) !! Password.login_Email b3
               = Some u2) by (simpl; rewrite He3, <- He2; exact L2).
  assert (Q2 : Email u2 = Password.login_Email b3)
    by (subst u2 u1; simpl; now rewrite He3).
  assert (Q3 : EmailVerified u2 = true) by (subst u2 u1; simpl; exact Hv).
  assert (Q4 : Password u2 = Password.hash (Password.argonHasher IDKey)
                               (Password.login_Password b3) (PasswordSalt u2))
    by (subst u2; rewrite <- hasher_is_argon, Hp3; reflexivity).
  destruct (mem_login_run pc IDKey r3 (later n2 (snd out2)) b3 u2
              hasher_is_argon signer_signs Hb3 Ha3 Q1 Q2 Q3 Q4) as [t Ht].
  fold out3 in Ht. exists (set_LastLogin (clock (later n2 (snd out2))) u2), t.
  split; [exact Ht|]. subst u2 u1. simpl.
  repeat split; auto. now rewrite C1.
Qed.

End Journeys.

(** * The properties above at concrete requests *)

Lemma malformed_body_touches_nothing_witness :
  let w := world_of {["a@x.com" := alice]} 7000 in
  Password.login pcfg (mkRequest (query_of "") (Err ErrDecode)) w
  = (JSON ResponseError StatusInternalServerError
       "message authentication failed", w).
Proof.
  intros w.
  destruct (malformed_body_touches_nothing pcfg lcfg ErrDecode w) as (Hl & _).
  apply Hl. reflexivity.
Defined.

Lemma unknown_identity_is_refused_witness :
  let w := world_of {["a@x.com" := alice]} 7000 in
  let r := mkRequest (query_of "reset")
             (Ok (Password.mkResetPasswordRequest "z@x.com" "" "")) in
  fst (Password.password_reset pcfg r w) = Password.fail ErrNotFound.
Proof.
  intros w r.
  destruct (unknown_identity_is_refused pcfg ErrNotFound w) as (_ & Hr & _).
  apply (Hr r (Password.mkResetPasswordRequest "z@x.com" "" ""));
    reflexivity.
Defined.

Lemma wrong_token_changes_nothing_witness :
  let w := world_of {["d@x.com" := dave]} 7000 in
  let r := mkRequest (query_of "")
             (Ok (Password.mkVerifyEmailRequest "d@x.com" "0000")) in
  fst (Password.email_verify pcfg r w)
  = JSON ResponseFail StatusBadRequest "invalid verification token".
Proof.
  intros w r.
  destruct (wrong_token_changes_nothing pcfg w) as (_ & Hv).
  apply (Hv r (Password.mkVerifyEmailRequest "d@x.com" "0000") dave).
  - reflexivity.
  - reflexivity.
  - vm_compute. discriminate.
  - vm_compute. discriminate.
Defined.

Lemma login_success_witness :
  let w := world_of {["a@x.com" := alice]} 7000 in
  let r := mkRequest (query_of "")
             (Ok (Password.mkLoginRequest "a@x.com" "pw1")) in
  fst (Password.login pcfg r w)
  = SetData (set_LastLogin 7000 alice) "jwt.id-alice"
      (JSON ResponseSuccess StatusOK "successfull login attempt").
Proof.
  intros w r.
  edestruct (login_success pcfg r w (Password.mkLoginRequest "a@x.com" "pw1")
               alice) as (Hr & _).
  - reflexivity.
  - reflexivity.
  - reflexivity.
  - vm_compute. discriminate.
  - reflexivity.
  - reflexivity.
  - reflexivity.
  - exact Hr.
Defined.

Lemma login_no_token_on_failure_witness :
  let w := world_of {["a@x.com" := alice]} 7000 in
  let r := mkRequest (query_of "")
             (Ok (Password.mkLoginRequest "a@x.com" "guess")) in
  Data (fst (Password.login pcfg r w)) = None.
Proof.
  intros w r. apply (login_no_token_on_failure pcfg r w).
  vm_compute. discriminate.
Defined.

Lemma register_writes_new_identity_witness :
  let w := world_of ∅ 7000 in
  let r := mkRequest (query_of "")
             (Ok (Password.mkRegisterRequest "n@x.com" "pw1")) in
  exists u rest,
    new_calls w (snd (Password.register pcfg r w)) =
      CallHash "pw1" (PasswordSalt u) :: CallSave u :: rest /\
    (rest = [] \/ rest = [CallNotify (Email u) (EmailVerifyToken u)]) /\
    Email u = "n@x.com" /\
    String.length (PasswordSalt u) = 16%nat /\
    Password u = Password.hash (Password.hasher pcfg) "pw1" (PasswordSalt u) /\
    String.length (EmailVerifyToken u) = 4%nat /\
    EmailVerified u = false /\
    PasswordResetToken u = "" /\ PasswordResetTokenExpiresAt u = zeroTime /\
    LastLogin u = 0.
Proof.
  intros w r.
  apply (register_writes_new_identity pcfg r w
           (Password.mkRegisterRequest "n@x.com" "pw1")).
  reflexivity.
Defined.

Lemma register_store_failure_witness :
  let w := world_of {["a@x.com" := alice]} 7000 in
  let r := mkRequest (query_of "")
             (Ok (Password.mkRegisterRequest "a@x.com" "pw9")) in
  fst (Password.register pcfg r w)
  = JSON ResponseError StatusInternalServerError "duplicate key".
Proof.
  intros w r.
  edestruct (register_store_failure pcfg r w) as (Hr & _).
  - vm_compute. right. left. reflexivity.
  - vm_compute. reflexivity.
  - exact Hr.
Defined.

Lemma login_keeps_credentials_witness :
  let w := world_of {["a@x.com" := alice]} 7000 in
  let r := mkRequest (query_of "verify")
             (Ok (Password.mkLoginRequest "a@x.com" "pw1")) in
  let u := set_EmailVerifyTokenExpiresAt (7000 + 7200)
             (set_EmailVerifyToken "0123" alice) in
  Password u = Password alice /\ PasswordSalt u = PasswordSalt alice.
Proof.
  intros w r u.
  destruct (login_keeps_credentials pcfg r w
              (Password.mkLoginRequest "a@x.com" "pw1") alice "a@x.com" u)
    as (_ & _ & _ & Hp & Hs & _).
  - reflexivity.
  - reflexivity.
  - vm_compute. right. left. reflexivity.
  - split; [exact Hp | exact Hs].
Defined.

Lemma password_reset_keeps_verification_witness :
  let w := world_of {["a@x.com" := alice]} 7000 in
  let r := mkRequest (query_of "reset")
             (Ok (Password.mkResetPasswordRequest "a@x.com" "" "")) in
  let u := set_PasswordResetTokenExpiresAt (7000 + 3600)
             (set_PasswordResetToken "012345" alice) in
  EmailVerified u = EmailVerified alice /\
  EmailVerifyToken u = EmailVerifyToken alice.
Proof.
  intros w r u.
  destruct (password_reset_keeps_verification pcfg r w
              (Password.mkResetPasswordRequest "a@x.com" "" "") alice
              "a@x.com" u)
    as (_ & _ & _ & Hv & _ & Ht & _).
  - reflexivity.
  - reflexivity.
  - vm_compute. right. left. reflexivity.
  - split; [exact Hv | exact Ht].
Defined.

Lemma email_verify_keeps_password_witness :
  let w := world_of {["d@x.com" := dave]} 7000 in
  let r := mkRequest (query_of "")
             (Ok (Password.mkVerifyEmailRequest "d@x.com" "4321")) in
  let u := set_EmailVerifiedAt 7000
             (set_EmailVerifyTokenExpiresAt zeroTime
                (set_EmailVerified true (set_EmailVerifyToken "" dave))) in
  Password u = Password dave /\ PasswordResetToken u = PasswordResetToken dave.
Proof.
  intros w r u.
  destruct (email_verify_keeps_password pcfg r w
              (Password.mkVerifyEmailRequest "d@x.com" "4321") dave
              "d@x.com" u)
    as (_ & _ & _ & Hp & _ & _ & Ht & _).
  - reflexivity.
  - reflexivity.
  - vm_compute. right. left. reflexivity.
  - split; [exact Hp | exact Ht].
Defined.

Lemma authorize_writes_only_login_and_flag_witness :
  let r := mkRequest
             (<["action" := "authenticate"]> {["token" := "tok-int64"]})
             (Ok (Passwordless.mkAuthenticateRequest "a@x.com")) in
  let w' := world_of {["a@x.com" := set_Email "a@x.com" dave]} 7000 in
  let u := set_EmailVerified true
             (set_LastLogin 7000 (set_Email "a@x.com" dave)) in
  In (CallUpdateOne "a@x.com" u)
    (new_calls w' (snd (Passwordless.authorize lcfg r w'))) /\
  Get (Query r) "action" = Passwordless.authenticate /\
  u = set_EmailVerified true (set_LastLogin (clock w') (set_Email "a@x.com" dave)).
Proof.
  intros r w' u.
  assert (Hin : In (CallUpdateOne "a@x.com" u)
                  (new_calls w' (snd (Passwordless.authorize lcfg r w')))).
  { vm_compute. right. right. left. reflexivity. }
  split; [exact Hin|].
  destruct (authorize_writes_only_login_and_flag lcfg r w'
              (Passwordless.mkAuthenticateRequest "a@x.com")
              (set_Email "a@x.com" dave) "a@x.com" u)
    as (Ha & _ & Hu).
  - reflexivity.
  - reflexivity.
  - exact Hin.
  - split; [exact Ha | exact Hu].
Defined.

Lemma authenticate_needs_token_witness :
  let w := world_of {["a@x.com" := alice]} 7000 in
  let r := mkRequest (query_of "authenticate")
             (Ok (Passwordless.mkAuthenticateRequest "a@x.com")) in
  Passwordless.authorize lcfg r w = (JSON ResponseError StatusBadRequest "", w).
Proof.
  intros w r.
  apply (authenticate_needs_token lcfg r w
           (Passwordless.mkAuthenticateRequest "a@x.com")).
  - reflexivity.
  - reflexivity.
  - left. vm_compute. reflexivity.
Defined.

Lemma authenticate_email_mismatch_witness :
  let w := world_of {["b@x.com" := bob]} 7000 in
  let r := mkRequest
             (<["action" := "authenticate"]> {["token" := "tok-int64"]})
             (Ok (Passwordless.mkAuthenticateRequest "b@x.com")) in
  fst (Passwordless.authorize lcfg r w)
  = JSON ResponseError StatusBadRequest "".
Proof.
  intros w r.
  destruct (authenticate_email_mismatch lcfg r w
              (Passwordless.mkAuthenticateRequest "b@x.com")) as (Hr & _).
  - reflexivity.
  - reflexivity.
  - vm_compute. discriminate.
  - vm_compute. discriminate.
  - exact Hr.
Defined.

Lemma resend_requires_identity_witness :
  let w := world_of {["a@x.com" := alice]} 7000 in
  let r := mkRequest (query_of "resend")
             (Ok (Passwordless.mkAuthenticateRequest "z@x.com")) in
  fst (Passwordless.authorize lcfg r w)
  = JSON ResponseError StatusBadRequest "user not found".
Proof.
  intros w r.
  destruct (resend_requires_identity lcfg r w
              (Passwordless.mkAuthenticateRequest "z@x.com")) as (_ & Hm).
  - reflexivity.
  - reflexivity.
  - exact (proj1 Hm).
Defined.

Lemma magic_link_round_trip_witness :
  let w := world_of {["a@x.com" := alice]} 1999999400 in
  let r1 := mkRequest (query_of "")
              (Ok (Passwordless.mkAuthenticateRequest "a@x.com")) in
  let r2 := mkRequest
              (<["action" := "authenticate"]> {["token" := "tok-int64"]})
              (Ok (Passwordless.mkAuthenticateRequest "a@x.com")) in
  let w1 := snd (Passwordless.authorize lcfg r1 w) in
  fst (Passwordless.authorize lcfg r2 (later 300 w1))
  = JSON ResponseSuccess StatusOK "" /\
  fst (Passwordless.authorize lcfg r2 (later 601 w1))
  = JSON ResponseError StatusBadRequest
      "validation token has expire, please try again".
Proof.
  intros w r1 r2 w1. split.
  - destruct (magic_link_round_trip lcfg r1 r2 w
                (Passwordless.mkAuthenticateRequest "a@x.com") alice 300)
      as (_ & Hok & _).
    + reflexivity.
    + vm_compute. discriminate.
    + reflexivity.
    + vm_compute. discriminate.
    + reflexivity.
    + reflexivity.
    + reflexivity.
    + reflexivity.
    + apply Hok; [vm_compute; discriminate | reflexivity].
  - destruct (magic_link_round_trip lcfg r1 r2 w
                (Passwordless.mkAuthenticateRequest "a@x.com") alice 601)
      as (_ & _ & Hex).
    + reflexivity.
    + vm_compute. discriminate.
    + reflexivity.
    + vm_compute. discriminate.
    + reflexivity.
    + reflexivity.
    + reflexivity.
    + reflexivity.
    + apply Hex. vm_compute. reflexivity.
Defined.

Lemma Build_appends_routes_witness :
  let a := Authentication.New []
             [Authentication.RegisterStrategy passwordProvider;
              Authentication.RegisterStrategy passwordlessProvider] in
  let b := Authentication.New []
             [Authentication.RegisterStrategy passwordlessProvider;
              Authentication.RegisterStrategy passwordProvider] in
  fst (fst (Authentication.Build b)) ≡ₚ fst (fst (Authentication.Build a)).
Proof.
  intros a b.
  apply (Build_appends_routes a b
           (fun p => fst (Authentication.Init p [] Authentication.ServerSession))).
  - constructor; [|constructor; [|constructor]].
    + intros r s. simpl. unfold Password.Init, Post.
      rewrite <- !app_assoc. reflexivity.
    + intros r s. reflexivity.
  - apply Permutation_swap.
  - reflexivity.
Defined.

Lemma Config_defaults_survive_witness :
  let cfg := PasswordConfig.Config (gmap string User) string toyIDKey
               [PasswordConfig.withNotifier _ _ notify_ok;
                PasswordConfig.withJWT _ _ "key";
                PasswordConfig.withNotifier _ _ notify_down] in
  PasswordConfig.issuer _ _ cfg = "demo-issuer" /\
  PasswordConfig.audience _ _ cfg = "demo-audience".
Proof.
  intros cfg.
  destruct (Config_defaults_survive (gmap string User) string toyIDKey
              [PasswordConfig.withNotifier _ _ notify_ok;
               PasswordConfig.withJWT _ _ "key";
               PasswordConfig.withNotifier _ _ notify_down])
    as (Hi & Ha & _).
  - constructor; [|constructor; [|constructor; [|constructor]]].
    + right. right. now exists notify_ok.
    + left. now exists "key".
    + right. right. now exists notify_down.
  - split; [exact Hi | exact Ha].
Defined.

Lemma requests_touch_only_named_identities_witness :
  let w := world_of {["a@x.com" := alice; "d@x.com" := dave]} 7000 in
  let sts :=
    [EmailVerify (mkRequest (query_of "")
                    (Ok (Password.mkVerifyEmailRequest "d@x.com" "4321")));
     PasswordReset (mkRequest (query_of "reset")
                      (Ok (Password.mkResetPasswordRequest "d@x.com" "" "")))] in
  store (run pcfg lcfg sts w) !! "a@x.com" = Some alice.
Proof.
  intros w sts.
  destruct (requests_touch_only_named_identities pcfg lcfg sts w) as (_ & Hf).
  - intros e u. unfold w. simpl.
    rewrite lookup_insert. case_decide; [intros E; now inversion E|].
    rewrite lookup_singleton. case_decide; [intros E; now inversion E|].
    discriminate.
  - rewrite (Hf "a@x.com"); [reflexivity|].
    repeat constructor; vm_compute; discriminate.
Defined.

Lemma verify_token_is_single_use_witness :
  let w := world_of {["d@x.com" := dave]} 7000 in
  let r := mkRequest (query_of "")
             (Ok (Password.mkVerifyEmailRequest "d@x.com" "4321")) in
  let out1 := Password.email_verify pcfg r w in
  fst (Password.email_verify pcfg r (later 5 (snd out1)))
  = JSON ResponseFail StatusBadRequest "invalid verification token".
Proof.
  intros w r out1.
  destruct (verify_token_is_single_use pcfg r w
              (Password.mkVerifyEmailRequest "d@x.com" "4321") dave 5)
    as (_ & _ & H2 & _).
  - reflexivity.
  - vm_compute. discriminate.
  - reflexivity.
  - reflexivity.
  - reflexivity.
  - vm_compute. discriminate.
  - vm_compute. discriminate.
  - exact H2.
Defined.

Lemma reset_token_is_single_use_witness :
  let w := world_of {["a@x.com" := alice]} 5500 in
  let r := mkRequest (query_of "")
             (Ok (Password.mkResetPasswordRequest "a@x.com" "T1T1T1" "pw2")) in
  let out1 := Password.password_reset pcfg r w in
  fst (Password.password_reset pcfg r (later 5 (snd out1)))
  = JSON ResponseFail StatusBadRequest "invalid reset token".
Proof.
  intros w r out1.
  destruct (reset_token_is_single_use pcfg r w
              (Password.mkResetPasswordRequest "a@x.com" "T1T1T1" "pw2")
              alice 5)
    as (_ & _ & _ & H2 & _).
  - reflexivity.
  - vm_compute. discriminate.
  - reflexivity.
  - reflexivity.
  - reflexivity.
  - vm_compute. discriminate.
  - vm_compute. discriminate.
  - exact H2.
Defined.

Lemma register_then_login_asks_for_verification_witness :
  let w := world_of ∅ 7000 in
  let r1 := mkRequest (query_of "")
              (Ok (Password.mkRegisterRequest "n@x.com" "pw1")) in
  let r2 := mkRequest (query_of "")
              (Ok (Password.mkLoginRequest "n@x.com" "pw1")) in
  let w1 := later 10 (snd (Password.register pcfg r1 w)) in
  Data (fst (Password.login pcfg r2 w1)) = None.
Proof.
  intros w r1 r2 w1.
  destruct (register_then_login_asks_for_verification pcfg r1 r2 w
              (Password.mkRegisterRequest "n@x.com" "pw1")
              (Password.mkLoginRequest "n@x.com" "pw1") 10)
    as (Hd & _).
  - reflexivity.
  - reflexivity.
  - reflexivity.
  - reflexivity.
  - exact Hd.
Defined.

Lemma toySign_signs (c : Password.JWTClaims) :
  exists t, Password.jwt_Sign pcfg c = Ok t.
Proof. eexists. reflexivity. Defined.

Lemma register_verify_login_succeeds_witness :
  let w := world_of ∅ 7000 in
  let r1 := mkRequest (query_of "")
              (Ok (Password.mkRegisterRequest "n@x.com" "pw1")) in
  let r2 := mkRequest (query_of "")
              (Ok (Password.mkVerifyEmailRequest "n@x.com" "2345")) in
  let r3 := mkRequest (query_of "")
              (Ok (Password.mkLoginRequest "n@x.com" "pw1")) in
  let w1 := snd (Password.register pcfg r1 w) in
  let out2 := Password.email_verify pcfg r2 (later 60 w1) in
  let out3 := Password.login pcfg r3 (later 60 (snd out2)) in
  exists u t,
    fst out3 = SetData u t
                 (JSON ResponseSuccess StatusOK "successfull login attempt") /\
    Email u = "n@x.com" /\ EmailVerified u = true /\
    EmailVerifyToken u = "" /\ LastLogin u = 7000 + 60 + 60.
Proof.
  intros w r1 r2 r3 w1 out2 out3.
  destruct (register_verify_login_succeeds pcfg toyIDKey eq_refl toySign_signs
              r1 r2 r3 w
              (Password.mkRegisterRequest "n@x.com" "pw1")
              (Password.mkVerifyEmailRequest "n@x.com" "2345")
              (Password.mkLoginRequest "n@x.com" "pw1") 60 60)
    as (_ & Hu).
  - reflexivity.
  - reflexivity.
  - reflexivity.
  - vm_compute. discriminate.
  - reflexivity.
  - vm_compute. right. right. left. reflexivity.
  - vm_compute. discriminate.
  - reflexivity.
  - vm_compute. discriminate.
  - reflexivity.
  - reflexivity.
  - exact Hu.
Defined.

Lemma reset_then_login_with_new_password_witness :
  let w := world_of {["a@x.com" := alice]} 7000 in
  let r1 := mkRequest (query_of "reset")
              (Ok (Password.mkResetPasswordRequest "a@x.com" "" "")) in
  let r2 := mkRequest (query_of "")
              (Ok (Password.mkResetPasswordRequest "a@x.com" "012345" "pw2")) in
  let r3 := mkRequest (query_of "")
              (Ok (Password.mkLoginRequest "a@x.com" "pw2")) in
  let w1 := snd (Password.password_reset pcfg r1 w) in
  let out2 := Password.password_reset pcfg r2 (later 60 w1) in
  let out3 := Password.login pcfg r3 (later 60 (snd out2)) in
  exists u t,
    fst out3 = SetData u t
                 (JSON ResponseSuccess StatusOK "successfull login attempt") /\
    Email u = "a@x.com" /\ PasswordResetToken u = "" /\
    PasswordUpdatedOn u = 7000 + 60.
Proof.
  intros w r1 r2 r3 w1 out2 out3.
  destruct (reset_then_login_with_new_password pcfg toyIDKey eq_refl
              toySign_signs r1 r2 r3 w alice
              (Password.mkResetPasswordRequest "a@x.com" "" "")
              (Password.mkResetPasswordRequest "a@x.com" "012345" "pw2")
              (Password.mkLoginRequest "a@x.com" "pw2") 60 60)
    as (_ & _ & Hu).
  - reflexivity.
  - reflexivity.
  - reflexivity.
  - reflexivity.
  - reflexivity.
  - reflexivity.
  - vm_compute. discriminate.
  - reflexivity.
  - reflexivity.
  - vm_compute. discriminate.
  - reflexivity.
  - vm_compute. discriminate.
  - reflexivity.
  - reflexivity.
  - exact Hu.
Defined.
